(** * Training-dynamics logging: writer and reader of per-epoch record files

    Shallow embedding of [cartography/selection/selection_utils.py]:
    [log_training_dynamics], [log_eval_dynamics], [read_training_dynamics]
    and [read_eval_dynamics], together with the part of the file system,
    of JSON and of Python dictionaries that these four functions touch.

    Scope of the model.
    - A file is the list of its lines, and a line is the JSON value that
      [json.loads] returns for it ([None] for text that [json.loads]
      rejects, such as a blank line).
    - Strings are sequences of bytes: the UTF-8 encoding of the Python
      string.
    - Floats are represented by the rational they denote; NaN and the
      infinities are not represented.  [DataFrame.to_json] writes a float
      with ten decimals ([double_precision=10]); [render_float] is the
      value that is read back.
    - What pandas makes of an epoch file that exists already
      ([pd.read_json], [pd.concat] and [to_json] again, lines 37-39 and
      63-65) depends on its inference of column types from the stored
      text.  That is library behaviour which this development leaves
      open: it is the parameter [rewritten] of the writers.
    - Exceptions are values of [exn]; nothing in the source catches them,
      so a raised exception is the result of the whole call. *)

From Stdlib Require Import ZArith QArith Qround Qabs Qcanon Ascii.
From stdpp Require Import base gmap strings pretty list numbers.

Local Open Scope Z_scope.
Set Warnings "-register-all".

(** ** JSON values, as produced by [json.loads] *)

Inductive json :=
| JNull
| JBool (b : bool)
| JInt (z : Z)
| JFloat (q : Q)
| JStr (s : string)
| JList (l : list json)
| JObj (fields : list (string * json)).

(** ** Exceptions and the error monad *)

Inductive exn :=
| AssertionError   (* a failed [assert] *)
| KeyError         (* [d[k]] on a dict without [k] *)
| TypeError        (* subscripting or hashing a value that does not support it *)
| ValueError       (* [json.JSONDecodeError], pandas length mismatch *)
| OSError.         (* [FileNotFoundError], [NotADirectoryError], [IsADirectoryError] *)

Inductive result (A : Type) :=
| Ok (a : A)
| Raise (e : exn).
Arguments Ok {A} a.
Arguments Raise {A} e.

#[global] Instance result_ret : MRet result := λ A a, Ok a.
#[global] Instance result_bind : MBind result := λ A B f m,
  match m with
  | Ok a => f a
  | Raise e => Raise e
  end.

(** A [for] loop whose body may raise: the first exception ends the loop. *)
Fixpoint foldM {A B : Type} (f : A → B → result A) (a : A) (l : list B) : result A :=
  match l with
  | [] => Ok a
  | x :: l' => a' ← f a x; foldM f a' l'
  end.

(** [range(n)]: empty when [n <= 0]. *)
Definition range (n : Z) : list Z := Z.of_nat <$> seq 0 (Z.to_nat n).

(** ** Python operations on parsed JSON *)

(** Lookup in a parsed object (a Python [dict] with string keys). *)
Fixpoint obj_get (fields : list (string * json)) (k : string) : option json :=
  match fields with
  | [] => None
  | (k', v) :: rest => if decide (k' = k) then Some v else obj_get rest k
  end.

(** [record[field]] with [field] a string. *)
Definition getitem (record : json) (field : string) : result json :=
  match record with
  | JObj fields =>
      match obj_get fields field with
      | Some v => Ok v
      | None => Raise KeyError
      end
  | _ => Raise TypeError
  end.

(** A byte [10xxxxxx] continues the UTF-8 encoding of a character. *)
Definition is_continuation (c : ascii) : bool :=
  let n := nat_of_ascii c in (128 <=? n)%nat && (n <? 192)%nat.

Fixpoint all_continuation (s : string) : bool :=
  match s with
  | EmptyString => true
  | String c s' => is_continuation c && all_continuation s'
  end.

(** The encoding of one character: a byte below 128, or a first byte
    [110xxxxx], [1110xxxx] or [11110xxx] with its one, two or three
    continuation bytes. *)
Definition one_char (ch : string) : bool :=
  match ch with
  | EmptyString => false
  | String c rest =>
      let n := nat_of_ascii c in
      all_continuation rest &&
      (if (n <? 128)%nat then (String.length rest =? 0)%nat
       else if (n <? 192)%nat then false
       else if (n <? 224)%nat then (String.length rest =? 1)%nat
       else if (n <? 240)%nat then (String.length rest =? 2)%nat
       else if (n <? 248)%nat then (String.length rest =? 3)%nat
       else false)
  end.

(** [s[:-1]] on a string: the last character goes, that is its first
    byte and the continuation bytes after it; the empty string stays. *)
Fixpoint str_drop_last (s : string) : string :=
  match s with
  | EmptyString => EmptyString
  | String c s' =>
      if all_continuation s' then EmptyString else String c (str_drop_last s')
  end.

(** [v[:-1]]: defined on strings and lists; a dict rejects the slice as a
    key ([TypeError] up to CPython 3.11), the other values are not
    subscriptable. *)
Definition drop_last (v : json) : result json :=
  match v with
  | JStr s => Ok (JStr (str_drop_last s))
  | JList l => Ok (JList (removelast l))
  | _ => Raise TypeError
  end.

(** Dictionary keys.  Python looks a key up by hash and [==]: [None] is
    equal to itself only, strings compare by content, and [bool], [int]
    and [float] compare by numeric value ([True == 1 == 1.0]).  Lists and
    dicts are unhashable. *)
Inductive key :=
| KNone
| KNum (q : Qc)
| KStr (s : string).

#[global] Instance key_eq_dec : EqDecision key.
Proof. solve_decision. Defined.

Definition hash_key (v : json) : option key :=
  match v with
  | JNull => Some KNone
  | JBool b => Some (KNum (Q2Qc (inject_Z (if b then 1 else 0))))
  | JInt z => Some (KNum (Q2Qc (inject_Z z)))
  | JFloat q => Some (KNum (Q2Qc q))
  | JStr s => Some (KStr s)
  | JList _ | JObj _ => None
  end.

(** ** The merged history: an insertion-ordered Python [dict] *)

Record entry := Entry { gold : json; logits : list json }.

(** [(g, e)] stands for [g: {"gold": gold e, "logits": logits e}]; the
    stored key objects are pairwise different as keys. *)
Definition dynamics := list (json * entry).

Fixpoint dict_get (d : dynamics) (k : key) : option entry :=
  match d with
  | [] => None
  | (g, e) :: d' => if decide (hash_key g = Some k) then Some e else dict_get d' k
  end.

(** [d[k]["logits"].append(x)] *)
Fixpoint dict_append (d : dynamics) (k : key) (x : json) : dynamics :=
  match d with
  | [] => []
  | (g, e) :: d' =>
      if decide (hash_key g = Some k)
      then (g, Entry (gold e) (logits e ++ [x])) :: d'
      else (g, e) :: dict_append d' k x
  end.

(** ** The file system under [output_dir] / [model_dir] *)

(** A line of a [.jsonl] file: what [json.loads(line.strip())] returns,
    [None] when it raises. *)
Definition line := option json.

(** An entry of a per-kind subdirectory. *)
Inductive node :=
| RegFile (content : list line)
| SubDir.

(** An entry of the output directory itself. *)
Inductive dir_entry :=
| Folder (f : gmap string node)
| NotADir.

Definition is_file (n : node) : bool :=
  match n with RegFile _ => true | SubDir => false end.

Definition epoch_file_name (epoch : Z) : string :=
  "dynamics_epoch_" +:+ pretty epoch +:+ ".jsonl".

Definition logits_field (epoch : Z) : string :=
  "logits_epoch_" +:+ pretty epoch.

(** [len([f for f in os.listdir(td_dir) if os.path.isfile(...)])] *)
Definition count_files (td_dir : gmap string node) : Z :=
  Z.of_nat (length (filter (λ p, is_file p.2 = true) (map_to_list td_dir))).

(** The two kinds of dynamics; each has its writer, its reader and its
    subdirectory.  The two writers, and the two readers, differ in nothing
    but this name. *)
Inductive split :=
| Training
| Evaluation.

Definition subdir (s : split) : string :=
  match s with
  | Training => "training_dynamics"
  | Evaluation => "eval_dynamics"
  end.

(** ** Writers *)

(** Identifiers handed to the writer: integers or strings. *)
Inductive ident :=
| IdInt (z : Z)
| IdStr (s : string).

Definition json_of_ident (i : ident) : json :=
  match i with IdInt z => JInt z | IdStr s => JStr s end.

Definition json_of_scores (v : list Q) : json := JList (JFloat <$> v).

(** A pandas frame, seen through [orient="records"]: its rows. *)
Definition row := list (string * json).
Definition DataFrame := list row.

Definition make_row (epoch : Z) (i : ident) (v : list Q) (g : Z) : row :=
  [("guid", json_of_ident i); (logits_field epoch, json_of_scores v); ("gold", JInt g)].

Fixpoint zip_rows (epoch : Z) (ids : list ident) (vs : list (list Q)) (gs : list Z)
  : DataFrame :=
  match ids, vs, gs with
  | i :: ids', v :: vs', g :: gs' => make_row epoch i v g :: zip_rows epoch ids' vs' gs'
  | _, _, _ => []
  end.

(** [pd.DataFrame({"guid": ids, f"logits_epoch_{epoch}": logits, "gold": golds})]:
    columns of different lengths are rejected. *)
Definition new_frame (epoch : Z) (ids : list ident) (vs : list (list Q)) (gs : list Z)
  : result DataFrame :=
  if decide (length ids = length vs ∧ length vs = length gs)
  then Ok (zip_rows epoch ids vs gs)
  else Raise ValueError.

(** *** Floats as [to_json] writes them

    pandas' encoder writes a float [a >= 0] between [1e-15] and
    [1e16 - 1] as its integer part and ten decimals: the eleventh decimal
    and what follows are rounded to the nearest, a half going up when the
    ten decimals kept are zero or odd.  Outside these bounds it writes
    ten significant digits ([%.10g]), a half going to the even digit. *)

Definition half_even (a : Q) : Z :=
  let n := Qfloor a in
  match Qcompare (a - inject_Z n) (1 # 2) with
  | Gt => n + 1
  | Eq => if Z.odd n then n + 1 else n
  | Lt => n
  end.

Definition fixed10 (a : Q) : Q :=
  let whole := Qfloor a in
  let tmp := ((a - inject_Z whole) * inject_Z (10 ^ 10))%Q in
  let frac := Qfloor tmp in
  let frac' :=
    match Qcompare (tmp - inject_Z frac) (1 # 2) with
    | Gt => frac + 1
    | Eq => if (frac =? 0) || Z.odd frac then frac + 1 else frac
    | Lt => frac
    end in
  (inject_Z whole + inject_Z frac' / inject_Z (10 ^ 10))%Q.

(** The number of decimal digits of [z >= 1]. *)
Fixpoint digits (fuel : nat) (z : Z) : Z :=
  match fuel with
  | O => 0
  | S fuel' => if z <? 10 then 1 else 1 + digits fuel' (z / 10)
  end.

(** The least [k' >= k] with [a * 10 ^ k' >= 1], for [0 < a < 1]. *)
Fixpoint leading_zeros (fuel : nat) (a : Q) (k : Z) : Z :=
  match fuel with
  | O => k
  | S fuel' =>
      if Qle_bool 1 (a * inject_Z (10 ^ k)) then k else leading_zeros fuel' a (k + 1)
  end.

(** The decimal exponent of [a > 0]: [10 ^ e <= a < 10 ^ (e + 1)]. *)
Definition exponent10 (a : Q) : Z :=
  if Qle_bool 1 a
  then digits (S (Z.to_nat (Z.log2 (Qfloor a)))) (Qfloor a) - 1
  else - leading_zeros (S (Z.to_nat (Z.log2 (Z.pos (Qden a))))) a 1.

Definition sig10 (a : Q) : Q :=
  let s := exponent10 a - 9 in
  (inject_Z (half_even (a / Qpower 10 s)) * Qpower 10 s)%Q.

(** The float that [json.loads] reads back from what [to_json] writes
    for the float [q]; [q] itself when the rounding does not change its
    value. *)
Definition render_float (q : Q) : Q :=
  if Qeq_bool q 0 then q
  else
    let a := Qabs q in
    let r := if Qle_bool (1 # 10 ^ 15) a && Qle_bool a (inject_Z (10 ^ 16 - 1))
             then fixed10 a else sig10 a in
    let r' := if Qle_bool 0 q then r else Qopp r in
    if Qeq_bool r' q then q else Qred r'.

(** Integers, strings, booleans and [null] are written as they are;
    floats are rounded, also inside lists and objects. *)
Fixpoint render_json (v : json) : json :=
  match v with
  | JFloat q => JFloat (render_float q)
  | JList l => JList (map render_json l)
  | JObj fields =>
      JObj ((fix go (fs : list (string * json)) : list (string * json) :=
               match fs with
               | [] => []
               | (k, x) :: fs' => (k, render_json x) :: go fs'
               end) fields)
  | _ => v
  end.

Definition render_row (r : row) : row := (λ kv, (kv.1, render_json kv.2)) <$> r.

(** The lines that hold the rows of a frame as they are. *)
Definition record_lines (df : DataFrame) : list line := (λ r, Some (JObj r)) <$> df.

(** [df.to_json(path, lines=True, orient="records")]: the new content,
    one line per row; for a frame without rows, one blank line. *)
Definition to_json (df : DataFrame) : list line :=
  match df with
  | [] => [None]
  | _ :: _ => record_lines (render_row <$> df)
  end.

(** Lines 37-39 and 63-65: [pd.read_json] of the existing file,
    [pd.concat] with the new frame and [to_json] of the result.  What the
    file holds afterwards (or the exception raised) is pandas' doing and
    is left open; [rewritten old td_df] stands for it. *)
Class Pandas := { rewritten : list line → DataFrame → result (list line) }.

(** A stand-in for the closed examples and witnesses, none of which
    writes to a file that exists already. *)
#[global] Instance no_rewrite : Pandas := {| rewritten := λ _ _, Raise ValueError |}.

(** The common body of [log_training_dynamics] and [log_eval_dynamics].
    The result is the new state of [output_dir]. *)
Definition log_dynamics {pd : Pandas} (s : split) (output_dir : gmap string dir_entry)
    (epoch : Z) (ids : list ident) (vs : list (list Q)) (gs : list Z)
  : result (gmap string dir_entry) :=
  td_df ← new_frame epoch ids vs gs;
  logging_dir ← match output_dir !! subdir s with
                | None => Ok ∅                      (* os.makedirs *)
                | Some (Folder f) => Ok f
                | Some NotADir => Raise OSError
                end;
  content ← match logging_dir !! epoch_file_name epoch with
            | None => Ok (to_json td_df)
            | Some (RegFile old) => rewritten old td_df
            | Some SubDir => Raise OSError          (* pd.read_json on a directory *)
            end;
  Ok (<[subdir s := Folder (<[epoch_file_name epoch := RegFile content]> logging_dir)]>
        output_dir).

Definition log_training_dynamics {pd : Pandas} := log_dynamics Training.
Definition log_eval_dynamics {pd : Pandas} := log_dynamics Evaluation.

(** ** Readers *)

(** [json.loads(line.strip())] *)
Definition json_loads (l : line) : result json :=
  match l with
  | Some v => Ok v
  | None => Raise ValueError
  end.

(** [guid = record[id_field] if not strip_last else record[id_field][:-1]],
    followed by the hashing that [guid not in train_dynamics] performs. *)
Definition record_key (strip_last : bool) (id_field : string) (record : json)
  : result (json * key) :=
  v ← getitem record id_field;
  guid ← (if strip_last then drop_last v else Ok v);
  match hash_key guid with
  | Some k => Ok (guid, k)
  | None => Raise TypeError
  end.

(** The body of the inner loop, for one line of the file of [epoch_num]. *)
Definition process_record (strip_last : bool) (id_field : string) (epoch_num : Z)
    (td : dynamics) (l : line) : result dynamics :=
  record ← json_loads l;
  '(guid, k) ← record_key strip_last id_field record;
  td' ← match dict_get td k with
        | Some _ => Ok td
        | None =>
            if decide (epoch_num = 0)
            then g ← getitem record "gold"; Ok (td ++ [(guid, Entry g [])])
            else Raise AssertionError
        end;
  x ← getitem record (logits_field epoch_num);
  Ok (dict_append td' k x).

(** The body of the outer loop. *)
Definition process_epoch (td_dir : gmap string node) (strip_last : bool)
    (id_field : string) (td : dynamics) (epoch_num : Z) : result dynamics :=
  match td_dir !! epoch_file_name epoch_num with
  | None => Raise AssertionError              (* assert os.path.exists(epoch_file) *)
  | Some SubDir => Raise OSError              (* open() on a directory *)
  | Some (RegFile content) =>
      foldM (process_record strip_last id_field epoch_num) td content
  end.

(** [num_epochs] after [if burn_out: num_epochs = burn_out]: [None] and
    [0] are falsy. *)
Definition num_epochs (td_dir : gmap string node) (burn_out : option Z) : Z :=
  match burn_out with
  | None => count_files td_dir
  | Some b => if decide (b = 0) then count_files td_dir else b
  end.

(** [os.listdir(td_dir)] needs [td_dir] to be a directory. *)
Definition listdir (model_dir : gmap string dir_entry) (s : split)
  : result (gmap string node) :=
  match model_dir !! subdir s with
  | Some (Folder f) => Ok f
  | _ => Raise OSError
  end.

(** The common body of [read_training_dynamics] and [read_eval_dynamics]. *)
Definition read_dynamics (s : split) (model_dir : gmap string dir_entry)
    (strip_last : bool) (id_field : string) (burn_out : option Z) : result dynamics :=
  td_dir ← listdir model_dir s;
  foldM (process_epoch td_dir strip_last id_field) []
        (range (num_epochs td_dir burn_out)).

Definition read_training_dynamics := read_dynamics Training.
Definition read_eval_dynamics := read_dynamics Evaluation.

(** ** Example directories *)

(** The running example of the specification: two epochs, instances 1
    and 2. *)
Definition epoch0_rows : DataFrame :=
  zip_rows 0 [IdInt 1; IdInt 2] [[1#10; 9#10]; [8#10; 2#10]]%Q [1; 0].
Definition epoch1_rows : DataFrame :=
  zip_rows 1 [IdInt 1; IdInt 2] [[2#10; 8#10]; [7#10; 3#10]]%Q [1; 0].

Definition two_epochs : gmap string node :=
  <[epoch_file_name 1 := RegFile (to_json epoch1_rows)]>
    (<[epoch_file_name 0 := RegFile (to_json epoch0_rows)]> ∅).

Definition in_subdir (s : split) (td_dir : gmap string node) : gmap string dir_entry :=
  <[subdir s := Folder td_dir]> ∅.

(** The same with a directory next to the two files. *)
Definition with_checkpoints : gmap string node := <["checkpoints" := SubDir]> two_epochs.

(** The same, written by the writer. *)
Definition example_dir : result (gmap string dir_entry) :=
  d0 ← log_training_dynamics ∅ 0 [IdInt 1; IdInt 2]
         [[1#10; 9#10]; [8#10; 2#10]]%Q [1; 0];
  log_training_dynamics d0 1 [IdInt 1; IdInt 2]
         [[2#10; 8#10]; [7#10; 3#10]]%Q [1; 0].

(** One file with the first record of the example. *)
Definition one_record : gmap string node :=
  <[epoch_file_name 0 := RegFile (to_json (zip_rows 0 [IdInt 1] [[1#10; 9#10]]%Q [1]))]> ∅.

(** Instance 3 turns up in epoch 1 only. *)
Definition late_instance : gmap string node :=
  <[epoch_file_name 1 :=
      RegFile (to_json (zip_rows 1 [IdInt 1; IdInt 3] [[2#10; 8#10]; [5#10; 5#10]]%Q [1; 0]))]>
    (<[epoch_file_name 0 := RegFile (to_json (zip_rows 0 [IdInt 1] [[1#10; 9#10]]%Q [1]))]> ∅).

(** Two files, but for the epochs 0 and 2. *)
Definition gap_at_1 : gmap string node :=
  <[epoch_file_name 2 := RegFile (to_json (zip_rows 2 [IdInt 1] [[3#10; 7#10]]%Q [1]))]>
    (<[epoch_file_name 0 := RegFile (to_json (zip_rows 0 [IdInt 1] [[1#10; 9#10]]%Q [1]))]> ∅).

(** Instance 1 has gold label 1 in epoch 0 and gold label 0 in epoch 1. *)
Definition gold_changes : gmap string node :=
  <[epoch_file_name 1 := RegFile (to_json (zip_rows 1 [IdInt 1] [[2#10; 8#10]]%Q [0]))]>
    (<[epoch_file_name 0 := RegFile (to_json (zip_rows 0 [IdInt 1] [[1#10; 9#10]]%Q [1]))]> ∅).

(** One file, in which instance 1 has two records. *)
Definition duplicated : gmap string node :=
  <[epoch_file_name 0 :=
      RegFile (to_json (zip_rows 0 [IdInt 1; IdInt 1] [[1#10; 9#10]; [4#10; 6#10]]%Q [1; 0]))]> ∅.

(** A record with a string identifier. *)
Definition abc1_record : json :=
  JObj [("guid", JStr "abc1"); (logits_field 0, json_of_scores [1#10; 9#10]%Q);
        ("gold", JInt 1)].

(** The key of an integer identifier. *)
Definition int_key (z : Z) : key := KNum (Q2Qc (inject_Z z)).

(** ** Vocabulary for the statements

    Observations on a directory of epoch files, used to say what the
    readers return.  [sl] and [idf] are the reader's [strip_last] and
    [id_field]. *)

(** The key under which the reader files a line, when it gets that far. *)
Definition line_key (sl : bool) (idf : string) (l : line) : option key :=
  match l with
  | Some r =>
      match record_key sl idf r with
      | Ok (_, k) => Some k
      | Raise _ => None
      end
  | None => None
  end.

Definition line_field (field : string) (l : line) : option json :=
  match l with
  | Some r =>
      match getitem r field with
      | Ok x => Some x
      | Raise _ => None
      end
  | None => None
  end.

(** The score-vector that a line of the file of epoch [n] carries. *)
Definition line_logits (n : Z) : line → option json := line_field (logits_field n).

Definition line_gold : line → option json := line_field "gold".

(** The lines of a file that bear key [k], in file order. *)
Definition bearing (sl : bool) (idf : string) (k : key) (content : list line)
  : list line :=
  filter (λ l, line_key sl idf l = Some k) content.

Definition key_logits (sl : bool) (idf : string) (n : Z) (k : key)
    (content : list line) : list json :=
  omap (line_logits n) (bearing sl idf k content).

(** The gold label of the first line bearing [k]. *)
Definition first_gold (sl : bool) (idf : string) (k : key) (content : list line)
  : option json :=
  head (bearing sl idf k content) ≫= line_gold.

Definition epoch_content (td_dir : gmap string node) (n : Z) : list line :=
  match td_dir !! epoch_file_name n with
  | Some (RegFile c) => c
  | _ => []
  end.

(** All lines bearing [k] in the files of the epochs [es], in reading order. *)
Definition all_bearing (sl : bool) (idf : string) (td_dir : gmap string node)
    (k : key) (es : list Z) : list line :=
  es ≫= (λ n, bearing sl idf k (epoch_content td_dir n)).

Definition all_logits (sl : bool) (idf : string) (td_dir : gmap string node)
    (k : key) (es : list Z) : list json :=
  es ≫= (λ n, key_logits sl idf n k (epoch_content td_dir n)).

(** A line of epoch [n] the reader accepts: it has an identifier that can
    serve as a key and a score-vector for epoch [n], and the first line of
    epoch 0 with the same key has a gold label. *)
Definition line_ok (sl : bool) (idf : string) (td_dir : gmap string node)
    (n : Z) (l : line) : bool :=
  match line_key sl idf l, line_logits n l with
  | Some k, Some _ => bool_decide (is_Some (first_gold sl idf k (epoch_content td_dir 0)))
  | _, _ => false
  end.

Definition epoch_ok (sl : bool) (idf : string) (td_dir : gmap string node)
    (n : Z) : bool :=
  match td_dir !! epoch_file_name n with
  | Some (RegFile c) => forallb (line_ok sl idf td_dir n) c
  | _ => false
  end.

(** The epoch files [0 .. num - 1] exist and hold accepted lines only. *)
Definition consistent (sl : bool) (idf : string) (td_dir : gmap string node)
    (num : Z) : bool :=
  forallb (epoch_ok sl idf td_dir) (range num).

(** What reading back one freshly written epoch-0 file should give. *)
Fixpoint merged (ids : list ident) (vs : list (list Q)) (gs : list Z) : dynamics :=
  match ids, vs, gs with
  | i :: ids', v :: vs', g :: gs' =>
      (json_of_ident i, Entry (JInt g) [json_of_scores v]) :: merged ids' vs' gs'
  | _, _, _ => []
  end.

(** ** Vocabulary for the writers *)

#[global] Instance split_eq_dec : EqDecision split.
Proof. solve_decision. Defined.

(** The per-kind subdirectory as the writer finds it, or creates it. *)
Definition logging_dir_of (s : split) (output_dir : gmap string dir_entry)
  : gmap string node :=
  match output_dir !! subdir s with
  | Some (Folder f) => f
  | _ => ∅
  end.

(** The content that a write leaves in the epoch file of the
    subdirectory [logging_dir]. *)
Definition new_content {pd : Pandas} (logging_dir : gmap string node) (epoch : Z)
    (td_df : DataFrame) : result (list line) :=
  match logging_dir !! epoch_file_name epoch with
  | None => Ok (to_json td_df)
  | Some (RegFile old) => rewritten old td_df
  | Some SubDir => Raise OSError
  end.

(** The output directory after a write that left [content] in the file. *)
Definition with_file (s : split) (output_dir : gmap string dir_entry) (epoch : Z)
    (content : list line) : gmap string dir_entry :=
  <[subdir s := Folder (<[epoch_file_name epoch := RegFile content]>
                          (logging_dir_of s output_dir))]> output_dir.

(** Score-vectors that [to_json] writes without rounding. *)
Definition exact_scores (vs : list (list Q)) : Prop :=
  Forall (Forall (λ q, render_float q = q)) vs.

(** The score-vectors as they are read back. *)
Definition rendered (vs : list (list Q)) : list (list Q) :=
  (λ v : list Q, render_float <$> v) <$> vs.

(** A regular file, as opposed to a directory. *)
Definition regular (n : node) : Prop := ∃ c, n = RegFile c.

#[global] Instance regular_dec (n : node) : Decision (regular n).
Proof. destruct n as [c|]; [left; by exists c | right; by intros [c ?]]. Defined.

(** A subdirectory whose regular files are the epoch files [0 .. k - 1];
    entries of another kind may stand under other names. *)
Definition epoch_files_only (td_dir : gmap string node) (k : Z) : Prop :=
  ∀ name, (∃ c, td_dir !! name = Some (RegFile c)) ↔
          ∃ j, 0 ≤ j < k ∧ name = epoch_file_name j.

(** A run that logs one epoch after the other, from [epoch] on, for the
    same instances: [data] holds the score-vectors and gold labels of
    each epoch. *)
Fixpoint log_epochs {pd : Pandas} (s : split) (d : gmap string dir_entry) (epoch : Z)
    (ids : list ident) (data : list (list (list Q) * list Z))
  : result (gmap string dir_entry) :=
  match data with
  | [] => Ok d
  | (vs, gs) :: rest =>
      d' ← log_dynamics s d epoch ids vs gs;
      log_epochs s d' (epoch + 1) ids rest
  end.

(** One more score-vector for every entry, in order. *)
Definition extend (td : dynamics) (vs : list (list Q)) : dynamics :=
  zip_with (λ ge v, (ge.1, Entry (gold ge.2) (logits ge.2 ++ [json_of_scores v]))) td vs.

(** The histories of such a run: gold labels of the first epoch,
    score-vectors of all epochs. *)
Definition histories (ids : list ident) (data : list (list (list Q) * list Z))
  : dynamics :=
  match data with
  | [] => []
  | (vs0, gs0) :: rest => foldl extend (merged ids vs0 gs0) rest.*1
  end.

(** The keys of the lines of a file, each once, in the order of their
    first occurrence; keys in [seen] are left out. *)
Fixpoint first_keys (sl : bool) (idf : string) (seen : list key) (c : list line)
  : list key :=
  match c with
  | [] => []
  | l :: c' =>
      match line_key sl idf l with
      | Some k =>
          if decide (k ∈ seen) then first_keys sl idf seen c'
          else k :: first_keys sl idf (seen ++ [k]) c'
      | None => first_keys sl idf seen c'
      end
  end.

(** * Properties *)

(** ** The error monad and [range] *)

Lemma bind_Ok {A B} (m : result A) (f : A → result B) (b : B) :
  m ≫= f = Ok b → ∃ a, m = Ok a ∧ f a = Ok b.
Proof. destruct m as [a|e]; [eauto | discriminate]. Qed.

Lemma foldM_app {A B} (f : A → B → result A) (a : A) (l1 l2 : list B) :
  foldM f a (l1 ++ l2) = a' ← foldM f a l1; foldM f a' l2.
Proof.
  revert a. induction l1 as [|x l1 IH]; intros a; simpl; [done|].
  destruct (f a x) as [a'|e]; simpl; [apply IH | done].
Qed.

Lemma elem_of_range (n j : Z) : j ∈ range n ↔ 0 ≤ j < n.
Proof.
  unfold range. rewrite list_elem_of_fmap. split.
  - intros (i & -> & Hi). apply elem_of_seq in Hi. lia.
  - intros Hj. exists (Z.to_nat j). split; [lia|]. apply elem_of_seq. lia.
Qed.

Lemma range_split (n j : Z) :
  0 ≤ j < n → ∃ rest, range n = range j ++ j :: rest.
Proof.
  intros Hj. unfold range.
  replace (Z.to_nat n) with (Z.to_nat j + S (Z.to_nat (n - j - 1)))%nat by lia.
  rewrite seq_app, fmap_app. simpl. rewrite Z2Nat.id by lia. eauto.
Qed.

Lemma range_pos (n : Z) : 0 < n → range n = 0 :: (Z.succ <$> range (n - 1)).
Proof.
  intros Hn. unfold range.
  replace (Z.to_nat n) with (S (Z.to_nat (n - 1))) by lia.
  simpl. f_equal. rewrite <- seq_shift, <- !list_fmap_compose.
  apply list_fmap_ext. intros _ i _. simpl. lia.
Qed.

(** ** The dictionary *)

Lemma dict_get_append (d : dynamics) (k k' : key) (x : json) :
  dict_get (dict_append d k x) k' =
  if decide (k = k')
  then (λ e, Entry (gold e) (logits e ++ [x])) <$> dict_get d k'
  else dict_get d k'.
Proof.
  induction d as [|[g e] d IH]; simpl.
  - by destruct (decide (k = k')).
  - destruct (decide (hash_key g = Some k)) as [Hk|Hk]; simpl.
    + repeat case_decide; simplify_eq; done.
    + rewrite IH. repeat case_decide; simplify_eq; done.
Qed.

Lemma dict_get_snoc (d : dynamics) (g : json) (e : entry) (k : key) :
  dict_get (d ++ [(g, e)]) k =
  match dict_get d k with
  | Some e' => Some e'
  | None => if decide (hash_key g = Some k) then Some e else None
  end.
Proof.
  induction d as [|[g' e'] d IH]; simpl; [done|].
  by destruct (decide (hash_key g' = Some k)).
Qed.

Lemma dict_append_app (d1 d2 : dynamics) (k : key) (x : json) :
  dict_get d1 k = None →
  dict_append (d1 ++ d2) k x = d1 ++ dict_append d2 k x.
Proof.
  induction d1 as [|[g e] d1 IH]; simpl; [done|].
  destruct (decide (hash_key g = Some k)); [discriminate|].
  intros H. by rewrite IH.
Qed.

Lemma hash_key_int_inj (a b : Z) : hash_key (JInt a) = hash_key (JInt b) → a = b.
Proof.
  simpl. intros H.
  assert (HQ : Q2Qc (inject_Z a) = Q2Qc (inject_Z b)) by congruence.
  assert (Hq : (Q2Qc (inject_Z a) == Q2Qc (inject_Z b))%Q) by (by rewrite HQ).
  simpl in Hq. rewrite !Qred_correct in Hq.
  unfold Qeq in Hq. simpl in Hq. lia.
Qed.

Lemma hash_key_ident_inj (i j : ident) :
  hash_key (json_of_ident i) = hash_key (json_of_ident j) → i = j.
Proof.
  destruct i as [a|s], j as [b|t]; simpl; intros H; try discriminate.
  - f_equal. by apply hash_key_int_inj.
  - congruence.
Qed.

Lemma hash_key_ident_Some (i : ident) : is_Some (hash_key (json_of_ident i)).
Proof. destruct i; simpl; eauto. Qed.

(** ** One line, one file *)

Section reader.
Variables (sl : bool) (idf : string).

Lemma record_key_hash (r guid : json) (k : key) :
  record_key sl idf r = Ok (guid, k) → hash_key guid = Some k.
Proof.
  unfold record_key. intros H.
  apply bind_Ok in H as (v & _ & H). apply bind_Ok in H as (g & _ & H).
  destruct (hash_key g) eqn:Hg; congruence.
Qed.

(** What a successful pass through the loop body has done. *)
Lemma process_record_Ok (n : Z) (td td' : dynamics) (l : line) :
  process_record sl idf n td l = Ok td' →
  ∃ k x, line_key sl idf l = Some k ∧ line_logits n l = Some x ∧
    match dict_get td k with
    | Some _ => td' = dict_append td k x
    | None =>
        n = 0 ∧ ∃ r guid g, l = Some r ∧ record_key sl idf r = Ok (guid, k) ∧
          line_gold l = Some g ∧ td' = td ++ [(guid, Entry g [x])]
    end.
Proof.
  unfold process_record. intros H.
  apply bind_Ok in H as (r & Hl & H). destruct l as [r'|]; [|discriminate].
  injection Hl as ->.
  apply bind_Ok in H as ([guid k] & Hk & H).
  apply bind_Ok in H as (td1 & Htd1 & H).
  apply bind_Ok in H as (x & Hx & H). injection H as <-.
  exists k, x. unfold line_logits, line_gold, line_field. simpl. rewrite Hk, Hx.
  split; [done|]. split; [done|].
  destruct (dict_get td k) as [e|] eqn:Hget.
  - by injection Htd1 as <-.
  - destruct (decide (n = 0)) as [->|]; [|discriminate].
    apply bind_Ok in Htd1 as (g & Hg & Htd1). injection Htd1 as <-.
    split; [done|]. exists r, guid, g. rewrite Hg. repeat split; try done.
    rewrite dict_append_app by done. simpl.
    by rewrite decide_True by (by eapply record_key_hash).
Qed.

(** The first encounter of a key outside epoch 0 trips the assertion. *)
Lemma process_record_first_late (n : Z) (td : dynamics) (l : line) (k : key) :
  n ≠ 0 → line_key sl idf l = Some k → dict_get td k = None →
  process_record sl idf n td l = Raise AssertionError.
Proof.
  intros Hn Hk Hget. destruct l as [r|]; [|discriminate]. simpl in Hk.
  unfold process_record. simpl.
  destruct (record_key sl idf r) as [[guid k']|e]; [|discriminate].
  injection Hk as ->. simpl. rewrite Hget. by rewrite decide_False.
Qed.

Lemma process_record_get (n : Z) (td td' : dynamics) (l : line) (k : key) :
  process_record sl idf n td l = Ok td' →
  dict_get td' k =
    match dict_get td k with
    | Some e => Some (Entry (gold e) (logits e ++ key_logits sl idf n k [l]))
    | None => g ← first_gold sl idf k [l]; Some (Entry g (key_logits sl idf n k [l]))
    end.
Proof.
  intros H. apply process_record_Ok in H as (k0 & x & Hk0 & Hx & H).
  unfold key_logits, first_gold, bearing. rewrite filter_cons, filter_nil.
  destruct (decide (line_key sl idf l = Some k)) as [Hk|Hk]; simpl.
  - assert (k0 = k) as -> by congruence. rewrite Hx. simpl.
    destruct (dict_get td k) as [e|] eqn:Hget.
    + subst td'. rewrite dict_get_append, decide_True, Hget by done. done.
    + destruct H as (_ & r & guid & g & -> & Hrk & Hg & ->).
      rewrite dict_get_snoc, Hget, Hg. simpl.
      by rewrite decide_True by (by eapply record_key_hash).
  - assert (k0 ≠ k) by congruence.
    destruct (dict_get td k0) as [e0|] eqn:Hget0.
    + subst td'. rewrite dict_get_append, decide_False by done.
      destruct (dict_get td k) as [[]|]; [|done]. by rewrite app_nil_r.
    + destruct H as (_ & r & guid & g & -> & Hrk & Hg & ->).
      rewrite dict_get_snoc. apply record_key_hash in Hrk.
      destruct (dict_get td k) as [[]|]; [by rewrite app_nil_r|].
      rewrite decide_False by congruence. done.
Qed.

Lemma process_record_gold (n : Z) (td td' : dynamics) (l : line) (k : key) :
  process_record sl idf n td l = Ok td' →
  line_key sl idf l = Some k → dict_get td k = None →
  n = 0 ∧ is_Some (line_gold l).
Proof.
  intros H Hk Hget. apply process_record_Ok in H as (k0 & x & Hk0 & Hx & H).
  assert (k0 = k) as -> by congruence. rewrite Hget in H.
  destruct H as (-> & r & guid & g & _ & _ & Hg & _). eauto.
Qed.

Lemma bearing_cons (k : key) (l : line) (c : list line) :
  bearing sl idf k (l :: c) =
  if decide (line_key sl idf l = Some k)
  then l :: bearing sl idf k c else bearing sl idf k c.
Proof. unfold bearing. by rewrite filter_cons. Qed.

Lemma key_logits_cons (n : Z) (k : key) (l : line) (c : list line) :
  key_logits sl idf n k (l :: c) =
  if decide (line_key sl idf l = Some k)
  then option_list (line_logits n l) ++ key_logits sl idf n k c
  else key_logits sl idf n k c.
Proof.
  unfold key_logits. rewrite bearing_cons.
  destruct (decide (line_key sl idf l = Some k)); [|done].
  simpl. by destruct (line_logits n l).
Qed.

Lemma first_gold_cons (k : key) (l : line) (c : list line) :
  first_gold sl idf k (l :: c) =
  if decide (line_key sl idf l = Some k)
  then line_gold l else first_gold sl idf k c.
Proof.
  unfold first_gold. rewrite bearing_cons.
  by destruct (decide (line_key sl idf l = Some k)).
Qed.

(** A whole file: every key keeps its gold label and gains the
    score-vectors of its lines; a new key takes the gold label of its
    first line. *)
Lemma process_file_get (n : Z) (c : list line) (td td' : dynamics) (k : key) :
  foldM (process_record sl idf n) td c = Ok td' →
  dict_get td' k =
    match dict_get td k with
    | Some e => Some (Entry (gold e) (logits e ++ key_logits sl idf n k c))
    | None => g ← first_gold sl idf k c; Some (Entry g (key_logits sl idf n k c))
    end.
Proof.
  revert td. induction c as [|l c IH]; intros td H; simpl in H.
  - injection H as <-. destruct (dict_get td k) as [[]|]; [|done].
    unfold key_logits, bearing. simpl. by rewrite app_nil_r.
  - apply bind_Ok in H as (td1 & H1 & H).
    rewrite (IH _ H), (process_record_get _ _ _ _ k H1).
    rewrite !key_logits_cons, !first_gold_cons.
    destruct (decide (line_key sl idf l = Some k)) as [Hk|Hk].
    + destruct (dict_get td k) as [e|] eqn:Hget; simpl.
      * unfold key_logits at 2. simpl. by rewrite app_nil_r, app_assoc.
      * destruct (process_record_gold _ _ _ _ _ H1 Hk Hget) as [_ [g Hg]].
        rewrite Hg. simpl. unfold key_logits at 2. simpl. by rewrite app_nil_r.
    + unfold first_gold at 1, key_logits at 1 3. simpl.
      destruct (dict_get td k) as [e|]; simpl; [|done]. by rewrite app_nil_r.
Qed.

Lemma process_file_keeps (n : Z) (c : list line) (td td' : dynamics) (k : key) :
  foldM (process_record sl idf n) td c = Ok td' →
  is_Some (dict_get td k) → is_Some (dict_get td' k).
Proof.
  intros H [e He]. rewrite (process_file_get _ _ _ _ k H), He. eauto.
Qed.

(** Outside epoch 0 a file that is read to its end holds no new key. *)
Lemma process_file_no_new (n : Z) (c : list line) (td td' : dynamics) (k : key) :
  foldM (process_record sl idf n) td c = Ok td' →
  n ≠ 0 → dict_get td k = None → bearing sl idf k c = [].
Proof.
  revert td. induction c as [|l c IH]; intros td H Hn Hget; [done|].
  simpl in H. apply bind_Ok in H as (td1 & H1 & H).
  rewrite bearing_cons.
  destruct (decide (line_key sl idf l = Some k)) as [Hk|Hk].
  - by destruct (process_record_gold _ _ _ _ _ H1 Hk Hget).
  - apply (IH td1 H Hn).
    rewrite (process_record_get _ _ _ _ k H1), Hget, first_gold_cons.
    by rewrite decide_False.
Qed.

(** Every line of a file that is read to its end has a score-vector. *)
Lemma process_file_logits (n : Z) (c : list line) (td td' : dynamics) (k : key) :
  foldM (process_record sl idf n) td c = Ok td' →
  length (key_logits sl idf n k c) = length (bearing sl idf k c).
Proof.
  revert td. induction c as [|l c IH]; intros td H; [done|].
  simpl in H. apply bind_Ok in H as (td1 & H1 & H).
  rewrite key_logits_cons, bearing_cons.
  destruct (decide (line_key sl idf l = Some k)); [|by eapply IH].
  apply process_record_Ok in H1 as (k0 & x & _ & -> & _).
  simpl. f_equal. by eapply IH.
Qed.

(** When the loop body goes through. *)
Lemma process_record_accepts (n : Z) (td : dynamics) (l : line) (k : key) (x : json) :
  line_key sl idf l = Some k → line_logits n l = Some x →
  is_Some (dict_get td k) ∨ (n = 0 ∧ is_Some (line_gold l)) →
  ∃ td', process_record sl idf n td l = Ok td'.
Proof.
  intros Hk Hx Hor. destruct l as [r|]; [|discriminate].
  unfold line_logits, line_gold, line_field in *. simpl in Hk.
  unfold process_record. simpl.
  destruct (record_key sl idf r) as [[guid k']|]; [|discriminate].
  injection Hk as ->. simpl.
  destruct (getitem r (logits_field n)) as [x'|]; [|discriminate].
  destruct (dict_get td k) as [e|]; simpl; [eauto|].
  destruct Hor as [[? ?]|[-> [g Hg]]]; [discriminate|].
  rewrite decide_True by done.
  destruct (getitem r "gold"); [|discriminate]. simpl. eauto.
Qed.

Lemma process_file_accepts (n : Z) (c : list line) (td : dynamics) :
  (∀ l, l ∈ c → ∃ k, line_key sl idf l = Some k ∧ is_Some (line_logits n l) ∧
     (is_Some (dict_get td k) ∨ (n = 0 ∧ is_Some (first_gold sl idf k c)))) →
  ∃ td', foldM (process_record sl idf n) td c = Ok td'.
Proof.
  revert td. induction c as [|l c IH]; intros td Hc; simpl; [eauto|].
  destruct (Hc l) as (k & Hk & [x Hx] & Hor); [left|].
  destruct (process_record_accepts n td l k x Hk Hx) as [td1 H1].
  { destruct Hor as [?|[-> Hg]]; [by left|right].
    by rewrite first_gold_cons, decide_True in Hg. }
  rewrite H1. simpl. apply IH. intros l' Hl'.
  destruct (Hc l') as (k' & Hk' & Hx' & Hor'); [by right|].
  exists k'. split; [done|]. split; [done|].
  pose proof (process_record_get _ _ _ _ k' H1) as Hget.
  destruct Hor' as [[e He]|[-> Hg]].
  - left. rewrite Hget, He. eauto.
  - rewrite first_gold_cons in Hg.
    destruct (decide (line_key sl idf l = Some k')) as [Hkk|Hkk]; [|by right].
    left. rewrite Hget. destruct (dict_get td k'); [eauto|].
    rewrite first_gold_cons, decide_True by done.
    destruct Hg as [g ->]. simpl. eauto.
Qed.

(** ** One epoch, all epochs *)

Variable td_dir : gmap string node.

Lemma process_epoch_Ok (td td' : dynamics) (n : Z) :
  process_epoch td_dir sl idf td n = Ok td' →
  td_dir !! epoch_file_name n = Some (RegFile (epoch_content td_dir n)) ∧
  foldM (process_record sl idf n) td (epoch_content td_dir n) = Ok td'.
Proof.
  unfold process_epoch, epoch_content.
  by destruct (td_dir !! epoch_file_name n) as [[c|]|].
Qed.

Lemma process_epoch_file (td : dynamics) (n : Z) (c : list line) :
  td_dir !! epoch_file_name n = Some (RegFile c) →
  process_epoch td_dir sl idf td n = foldM (process_record sl idf n) td c.
Proof. unfold process_epoch. by intros ->. Qed.

Lemma process_epoch_missing (td : dynamics) (n : Z) :
  td_dir !! epoch_file_name n = None →
  process_epoch td_dir sl idf td n = Raise AssertionError.
Proof. unfold process_epoch. by intros ->. Qed.

Lemma read_epochs_some (es : list Z) (td td' : dynamics) (k : key) (e : entry) :
  foldM (process_epoch td_dir sl idf) td es = Ok td' →
  dict_get td k = Some e →
  dict_get td' k = Some (Entry (gold e) (logits e ++ all_logits sl idf td_dir k es)).
Proof.
  revert td e. induction es as [|n es IH]; intros td e H Hget; simpl in H.
  - injection H as <-. unfold all_logits. simpl. rewrite app_nil_r. by destruct e.
  - apply bind_Ok in H as (td1 & H1 & H).
    apply process_epoch_Ok in H1 as [_ H1].
    pose proof (process_file_get _ _ _ _ k H1) as Hget1. rewrite Hget in Hget1.
    rewrite (IH _ _ H Hget1). unfold all_logits. rewrite bind_cons. simpl.
    by rewrite app_assoc.
Qed.

Lemma read_epochs_none (es : list Z) (td td' : dynamics) (k : key) :
  foldM (process_epoch td_dir sl idf) td es = Ok td' →
  0 ∉ es → dict_get td k = None →
  dict_get td' k = None ∧ all_bearing sl idf td_dir k es = [].
Proof.
  revert td. induction es as [|n es IH]; intros td H H0 Hget; simpl in H.
  - by injection H as <-.
  - apply bind_Ok in H as (td1 & H1 & H).
    apply process_epoch_Ok in H1 as [_ H1].
    apply not_elem_of_cons in H0 as [Hn H0].
    assert (Hb : bearing sl idf k (epoch_content td_dir n) = [])
      by (eapply process_file_no_new; eauto).
    assert (Hget1 : dict_get td1 k = None).
    { rewrite (process_file_get _ _ _ _ k H1), Hget.
      unfold first_gold. by rewrite Hb. }
    destruct (IH _ H H0 Hget1) as [? Hall]. split; [done|].
    unfold all_bearing in *. by rewrite bind_cons, Hb, Hall.
Qed.

Lemma read_epochs_logits (es : list Z) (td td' : dynamics) (k : key) :
  foldM (process_epoch td_dir sl idf) td es = Ok td' →
  length (all_logits sl idf td_dir k es) = length (all_bearing sl idf td_dir k es).
Proof.
  revert td. induction es as [|n es IH]; intros td H; [done|].
  simpl in H. apply bind_Ok in H as (td1 & H1 & H).
  apply process_epoch_Ok in H1 as [_ H1].
  unfold all_logits, all_bearing in *. rewrite !bind_cons, !length_app.
  f_equal; [by eapply process_file_logits | by eapply IH].
Qed.

Lemma read_epochs_exist (es : list Z) (td td' : dynamics) (n : Z) :
  foldM (process_epoch td_dir sl idf) td es = Ok td' → n ∈ es →
  td_dir !! epoch_file_name n = Some (RegFile (epoch_content td_dir n)).
Proof.
  revert td. induction es as [|m es IH]; intros td H Hn.
  - by apply elem_of_nil in Hn.
  - simpl in H. apply bind_Ok in H as (td1 & H1 & H).
    apply elem_of_cons in Hn as [->|Hn]; [|by eapply IH].
    by apply process_epoch_Ok in H1 as [? _].
Qed.

Lemma range_tail_no_zero (m : Z) : 0 ∉ Z.succ <$> range m.
Proof.
  intros (j & Hj & Hin)%list_elem_of_fmap. apply elem_of_range in Hin. lia.
Qed.

(** The returned mapping, key by key: the gold label comes from the
    first line of epoch 0 bearing the key, the score-vectors from all
    lines bearing it, in reading order. *)
Lemma read_epochs_get (num : Z) (td : dynamics) (k : key) :
  foldM (process_epoch td_dir sl idf) [] (range num) = Ok td →
  dict_get td k =
    if decide (0 < num)
    then g ← first_gold sl idf k (epoch_content td_dir 0);
         Some (Entry g (all_logits sl idf td_dir k (range num)))
    else None.
Proof.
  intros H. destruct (decide (0 < num)) as [Hnum|Hnum].
  - rewrite range_pos in * by done. simpl in H.
    apply bind_Ok in H as (td1 & H1 & H).
    apply process_epoch_Ok in H1 as [_ H1].
    pose proof (process_file_get _ _ _ _ k H1) as Hget1. simpl in Hget1.
    unfold all_logits. rewrite bind_cons. fold (all_logits sl idf td_dir k).
    destruct (first_gold sl idf k (epoch_content td_dir 0)) as [g|]; simpl in *.
    + by rewrite (read_epochs_some _ _ _ _ _ H Hget1).
    + by destruct (read_epochs_none _ _ _ k H (range_tail_no_zero _) Hget1).
  - unfold range in H. replace (Z.to_nat num) with 0%nat in H by lia.
    by injection H as <-.
Qed.

Lemma read_epochs_rest_accepts (es : list Z) (td : dynamics) :
  0 ∉ es →
  (∀ n, n ∈ es → epoch_ok sl idf td_dir n = true) →
  (∀ k, is_Some (first_gold sl idf k (epoch_content td_dir 0)) →
        is_Some (dict_get td k)) →
  ∃ td', foldM (process_epoch td_dir sl idf) td es = Ok td'.
Proof.
  revert td. induction es as [|n es IH]; intros td H0 Hok Htd; simpl; [eauto|].
  apply not_elem_of_cons in H0 as [Hn H0].
  assert (Hn_ok : epoch_ok sl idf td_dir n = true) by (apply Hok; left).
  unfold epoch_ok in Hn_ok.
  destruct (td_dir !! epoch_file_name n) as [[c|]|] eqn:Hfile; try discriminate.
  destruct (process_file_accepts n c td) as [td1 H1].
  { intros l Hl. rewrite forallb_forall in Hn_ok.
    specialize (Hn_ok l (proj1 (list_elem_of_In _ _) Hl)). unfold line_ok in Hn_ok.
    destruct (line_key sl idf l) as [k|]; [|discriminate].
    destruct (line_logits n l) as [x|]; [|discriminate].
    apply bool_decide_eq_true in Hn_ok. exists k. eauto. }
  rewrite (process_epoch_file _ _ _ Hfile), H1. simpl. apply IH; [done| |].
  - intros m Hm. apply Hok. by right.
  - intros k Hk. eapply process_file_keeps; eauto.
Qed.

(** A consistent directory is read to its end. *)
Lemma read_epochs_accepts (num : Z) :
  consistent sl idf td_dir num = true →
  ∃ td, foldM (process_epoch td_dir sl idf) [] (range num) = Ok td.
Proof.
  unfold consistent. rewrite forallb_forall. intros Hok.
  destruct (decide (0 < num)) as [Hnum|Hnum].
  - rewrite range_pos in * by done. simpl.
    assert (H0_ok : epoch_ok sl idf td_dir 0 = true) by (apply Hok; by left).
    pose proof H0_ok as Hc0. unfold epoch_ok in Hc0.
    assert (Hcontent := eq_refl (epoch_content td_dir 0)).
    unfold epoch_content at 1 in Hcontent.
    destruct (td_dir !! epoch_file_name 0) as [[c|]|] eqn:Hfile; try discriminate.
    destruct (process_file_accepts 0 c []) as [td1 H1].
    { intros l Hl. rewrite forallb_forall in Hc0.
      specialize (Hc0 l (proj1 (list_elem_of_In _ _) Hl)). unfold line_ok in Hc0.
      destruct (line_key sl idf l) as [k|]; [|discriminate].
      destruct (line_logits 0 l) as [x|]; [|discriminate].
      apply bool_decide_eq_true in Hc0. rewrite <- Hcontent in Hc0.
      exists k. eauto. }
    rewrite (process_epoch_file _ _ _ Hfile), H1. simpl.
    apply read_epochs_rest_accepts; [apply range_tail_no_zero| |].
    + intros n Hn. apply Hok. right. by apply list_elem_of_In.
    + intros k [g Hg]. rewrite (process_file_get _ _ _ _ k H1). simpl.
      rewrite <- Hcontent in Hg. rewrite Hg. simpl. eauto.
  - unfold range. replace (Z.to_nat num) with 0%nat by lia. simpl. eauto.
Qed.
End reader.

(** ** File names and the directory listing *)

Lemma string_length_app (s1 s2 : string) :
  String.length (s1 +:+ s2) = (String.length s1 + String.length s2)%nat.
Proof. induction s1 as [|c s1 IH]; simpl; [done | by rewrite IH]. Qed.

Lemma string_app_inj_r (s1 s2 t : string) : s1 +:+ t = s2 +:+ t → s1 = s2.
Proof.
  revert s2. induction s1 as [|c s1 IH]; intros [|c' s2] H; simpl in H.
  - done.
  - apply (f_equal String.length) in H. simpl in H.
    rewrite !string_length_app in H. simpl in H. lia.
  - apply (f_equal String.length) in H. simpl in H.
    rewrite !string_length_app in H. simpl in H. lia.
  - injection H as -> H. f_equal. by apply IH.
Qed.

#[global] Instance epoch_file_name_inj : Inj (=) (=) epoch_file_name.
Proof.
  intros a b H. unfold epoch_file_name in H.
  apply String.app_inj, string_app_inj_r in H. by apply (inj pretty).
Qed.

Lemma filter_all {A} (P : A → Prop) `{∀ x, Decision (P x)} (l : list A) :
  Forall P l → filter P l = l.
Proof.
  induction 1 as [|x l Hx Hl IH]; [done|].
  by rewrite filter_cons_True, IH.
Qed.

Lemma NoDup_range (n : Z) : NoDup (range n).
Proof.
  unfold range. apply NoDup_fmap; [apply _|]. apply NoDup_seq.
Qed.

(** A subdirectory that holds the epoch files [0 .. num - 1] and nothing
    else has [num] regular files. *)
Lemma count_files_epochs (td_dir : gmap string node) (num : Z) :
  0 ≤ num →
  dom td_dir = list_to_set (epoch_file_name <$> range num) →
  (∀ j, 0 ≤ j < num → ∃ c, td_dir !! epoch_file_name j = Some (RegFile c)) →
  count_files td_dir = num.
Proof.
  intros Hnum Hdom Hreg. unfold count_files.
  rewrite filter_all.
  - rewrite length_map_to_list, <- (size_dom (D := gset string)), Hdom.
    rewrite size_list_to_set by (apply NoDup_fmap; [apply _ | apply NoDup_range]).
    rewrite length_fmap. unfold range. rewrite length_fmap, length_seq. lia.
  - apply list.Forall_forall. intros [name nd] Hin. simpl.
    apply elem_of_map_to_list in Hin.
    assert (Hname : name ∈ dom td_dir) by (apply elem_of_dom; eauto).
    rewrite Hdom in Hname. apply elem_of_list_to_set in Hname.
    apply list_elem_of_fmap in Hname as (j & -> & Hj). apply elem_of_range in Hj.
    destruct (Hreg j Hj) as [c Hc]. rewrite Hc in Hin. by injection Hin as <-.
Qed.

Lemma count_files_singleton (name : string) (c : list line) :
  count_files (<[name := RegFile c]> ∅) = 1.
Proof. unfold count_files. by rewrite insert_empty, map_to_list_singleton. Qed.

Lemma count_files_insert_file (td_dir : gmap string node) (name : string)
    (c : list line) :
  td_dir !! name = None →
  count_files (<[name := RegFile c]> td_dir) = count_files td_dir + 1.
Proof.
  intros Hnone. unfold count_files.
  rewrite (Permutation_length (filter_Permutation _ _ _
             (map_to_list_insert td_dir name (RegFile c) Hnone))).
  rewrite filter_cons_True by done. simpl. lia.
Qed.

Lemma count_files_insert_subdir (td_dir : gmap string node) (name : string) :
  td_dir !! name = None →
  count_files (<[name := SubDir]> td_dir) = count_files td_dir.
Proof.
  intros Hnone. unfold count_files.
  rewrite (Permutation_length (filter_Permutation _ _ _
             (map_to_list_insert td_dir name SubDir Hnone))).
  by rewrite filter_cons_False by done.
Qed.

(** The count is that of the regular files, whatever else the
    subdirectory holds. *)
Lemma count_files_regular (td_dir : gmap string node) :
  count_files td_dir = Z.of_nat (size (filter (λ kv, regular kv.2) td_dir)).
Proof.
  induction td_dir as [|name x m Hname IH] using map_ind.
  - unfold count_files. by rewrite map_filter_empty, map_to_list_empty, map_size_empty.
  - destruct x as [c|].
    + rewrite count_files_insert_file, IH by done.
      rewrite map_filter_insert_True by (by exists c).
      rewrite map_size_insert_None; [lia|].
      apply map_lookup_filter_None. by left.
    + rewrite count_files_insert_subdir, IH by done.
      rewrite map_filter_insert_False by (by intros [c ?]).
      by rewrite delete_id.
Qed.

Lemma count_files_epoch_files_only (td_dir : gmap string node) (k : Z) :
  0 ≤ k → epoch_files_only td_dir k → count_files td_dir = k.
Proof.
  intros Hk Honly. rewrite count_files_regular, <- (size_dom (D := gset string)).
  assert (dom (filter (λ kv, regular kv.2) td_dir) =
          list_to_set (epoch_file_name <$> range k)) as ->.
  { apply set_eq. intros name.
    rewrite elem_of_dom, elem_of_list_to_set, list_elem_of_fmap. split.
    - intros [x [Hx [c Hc]]%map_lookup_filter_Some]. simpl in Hc. subst x.
      destruct (proj1 (Honly name)) as (j & Hj & ->); [eauto|].
      exists j. split; [done|]. by apply elem_of_range.
    - intros (j & -> & Hj%elem_of_range).
      destruct (proj2 (Honly (epoch_file_name j))) as [c Hc]; [eauto|].
      exists (RegFile c). apply map_lookup_filter_Some. split; [done|]. by exists c. }
  rewrite size_list_to_set by (apply NoDup_fmap; [apply _ | apply NoDup_range]).
  rewrite length_fmap. unfold range. rewrite length_fmap, length_seq. lia.
Qed.

(** ** Writers *)

Lemma render_row_make_row (epoch : Z) (i : ident) (v : list Q) (g : Z) :
  render_row (make_row epoch i v g) = make_row epoch i (render_float <$> v) g.
Proof.
  unfold render_row, make_row. simpl. f_equal; [by destruct i|].
  f_equal. unfold json_of_scores. f_equal. f_equal.
  induction v as [|q v IH]; [done|].
  change (map render_json (JFloat <$> q :: v))
    with (JFloat (render_float q) :: map render_json (JFloat <$> v)).
  by rewrite IH.
Qed.

Lemma render_zip_rows (epoch : Z) (ids : list ident) (vs : list (list Q)) (gs : list Z) :
  render_row <$> zip_rows epoch ids vs gs = zip_rows epoch ids (rendered vs) gs.
Proof.
  revert vs gs. induction ids as [|i ids IH]; intros [|v vs] [|g gs]; try done.
  change (zip_rows epoch (i :: ids) (v :: vs) (g :: gs))
    with (make_row epoch i v g :: zip_rows epoch ids vs gs).
  by rewrite fmap_cons, render_row_make_row, IH.
Qed.

(** What [to_json] writes for a frame with at least one row. *)
Lemma to_json_zip_rows (epoch : Z) (i : ident) (ids : list ident) (v : list Q)
    (vs : list (list Q)) (g : Z) (gs : list Z) :
  to_json (zip_rows epoch (i :: ids) (v :: vs) (g :: gs)) =
  record_lines (zip_rows epoch (i :: ids) (rendered (v :: vs)) (g :: gs)).
Proof.
  change (zip_rows epoch (i :: ids) (v :: vs) (g :: gs))
    with (make_row epoch i v g :: zip_rows epoch ids vs gs).
  unfold to_json. by rewrite <- render_zip_rows.
Qed.

Lemma rendered_exact (vs : list (list Q)) : exact_scores vs → rendered vs = vs.
Proof.
  unfold exact_scores. induction 1 as [|v vs Hv _ IH]; [done|].
  change (rendered (v :: vs)) with ((render_float <$> v) :: rendered vs).
  rewrite IH. f_equal.
  induction Hv as [|q v Hq _ IHv]; [done|]. rewrite fmap_cons. by rewrite Hq, IHv.
Qed.

Lemma to_json_exact (epoch : Z) (ids : list ident) (vs : list (list Q)) (gs : list Z) :
  ids ≠ [] → length ids = length vs → length vs = length gs → exact_scores vs →
  to_json (zip_rows epoch ids vs gs) = record_lines (zip_rows epoch ids vs gs).
Proof.
  intros Hne H1 H2 Hex. destruct ids as [|i ids]; [done|].
  destruct vs as [|v vs]; [discriminate|]. destruct gs as [|g gs]; [discriminate|].
  by rewrite to_json_zip_rows, rendered_exact.
Qed.

Lemma new_frame_Ok (epoch : Z) (ids : list ident) (vs : list (list Q)) (gs : list Z) :
  length ids = length vs → length vs = length gs →
  new_frame epoch ids vs gs = Ok (zip_rows epoch ids vs gs).
Proof. intros H1 H2. unfold new_frame. by rewrite decide_True. Qed.

(** ** Round trip of one epoch-0 file *)

Lemma process_written_row (td : dynamics) (i : ident) (v : list Q) (g : Z) (k : key) :
  hash_key (json_of_ident i) = Some k → dict_get td k = None →
  process_record false "guid" 0 td (Some (JObj (make_row 0 i v g))) =
  Ok (td ++ [(json_of_ident i, Entry (JInt g) [json_of_scores v])]).
Proof.
  intros Hk Hget. unfold process_record, record_key. simpl.
  rewrite Hk. simpl. rewrite Hget. simpl.
  rewrite dict_append_app by done. simpl. by rewrite decide_True.
Qed.

Lemma read_written_file (ids : list ident) (vs : list (list Q)) (gs : list Z)
    (td : dynamics) :
  NoDup ids →
  (∀ i k, i ∈ ids → hash_key (json_of_ident i) = Some k → dict_get td k = None) →
  foldM (process_record false "guid" 0) td (record_lines (zip_rows 0 ids vs gs)) =
  Ok (td ++ merged ids vs gs).
Proof.
  revert vs gs td. induction ids as [|i ids IH]; intros vs gs td Hnd Htd.
  - simpl. by rewrite app_nil_r.
  - destruct vs as [|v vs], gs as [|g gs]; simpl; try by rewrite app_nil_r.
    apply list.NoDup_cons in Hnd as [Hi Hnd].
    destruct (hash_key_ident_Some i) as [k Hk].
    rewrite (process_written_row td i v g k); [|done|apply (Htd i k); [by left|done]].
    simpl. fold (record_lines (zip_rows 0 ids vs gs)). rewrite IH; [|done|].
    + by rewrite <- app_assoc.
    + intros j kj Hj Hkj. rewrite dict_get_snoc.
      rewrite (Htd j kj) by (by (apply elem_of_cons; right) || done). rewrite decide_False; [done|].
      intros Hik. apply Hi. rewrite <- Hkj in Hik.
      by rewrite (hash_key_ident_inj _ _ Hik).
Qed.

(** ** The readers, unfolded *)

Lemma read_dynamics_listed (s : split) (model_dir : gmap string dir_entry)
    (td_dir : gmap string node) (sl : bool) (idf : string) (burn_out : option Z) :
  listdir model_dir s = Ok td_dir →
  read_dynamics s model_dir sl idf burn_out =
  foldM (process_epoch td_dir sl idf) [] (range (num_epochs td_dir burn_out)).
Proof. unfold read_dynamics. by intros ->. Qed.

Lemma listdir_Ok (s : split) (model_dir : gmap string dir_entry)
    (td_dir : gmap string node) :
  listdir model_dir s = Ok td_dir ↔ model_dir !! subdir s = Some (Folder td_dir).
Proof.
  unfold listdir. destruct (model_dir !! subdir s) as [[f|]|]; split; congruence.
Qed.

Lemma foldM_ext {A B} (f g : A → B → result A) (a : A) (l : list B) :
  (∀ a' x, x ∈ l → f a' x = g a' x) → foldM f a l = foldM g a l.
Proof.
  revert a. induction l as [|x l IH]; intros a H; simpl; [done|].
  rewrite (H a x) by (apply elem_of_cons; by left).
  destruct (g a x); simpl; [|done]. apply IH. intros a' y Hy. apply H.
  apply elem_of_cons. by right.
Qed.

Lemma epoch_ok_file (sl : bool) (idf : string) (td_dir : gmap string node) (num j : Z) :
  consistent sl idf td_dir num = true → 0 ≤ j < num →
  ∃ c, td_dir !! epoch_file_name j = Some (RegFile c) ∧
       forallb (line_ok sl idf td_dir j) c = true.
Proof.
  unfold consistent. rewrite forallb_forall. intros Hok Hj.
  specialize (Hok j). unfold epoch_ok in Hok.
  destruct (td_dir !! epoch_file_name j) as [[c|]|].
  - exists c. split; [done|]. apply Hok, list_elem_of_In, elem_of_range. done.
  - discriminate Hok. apply list_elem_of_In, elem_of_range. done.
  - discriminate Hok. apply list_elem_of_In, elem_of_range. done.
Qed.

(** ** Lines, keys and histories of a directory that is read *)

Lemma range_lookup (n j : Z) : 0 ≤ j < n → range n !! Z.to_nat j = Some j.
Proof.
  intros Hj. unfold range. rewrite list_lookup_fmap, lookup_seq_lt by lia.
  simpl. f_equal. lia.
Qed.

Lemma length_range (n : Z) : length (range n) = Z.to_nat n.
Proof. unfold range. by rewrite length_fmap, length_seq. Qed.

Lemma bind_singletons {A B} (f : A → list B) (es : list A) :
  (∀ a, a ∈ es → length (f a) = 1%nat) →
  length (es ≫= f) = length es ∧
  ∀ i a, es !! i = Some a → (es ≫= f) !! i = head (f a).
Proof.
  induction es as [|a0 es IH]; intros Hlen; [done|].
  rewrite bind_cons, length_app.
  assert (H0 : length (f a0) = 1%nat) by (apply Hlen, elem_of_cons; by left).
  destruct IH as [IH1 IH2].
  { intros a Ha. apply Hlen, elem_of_cons. by right. }
  split; [simpl; lia|]. intros i a Hi.
  destruct (f a0) as [|b [|]] eqn:Hf; try discriminate.
  destruct i as [|i]; simpl in *.
  - injection Hi as <-. by rewrite Hf.
  - by apply IH2.
Qed.

Lemma key_logits_accepted (sl : bool) (idf : string) (td_dir : gmap string node)
    (n : Z) (k : key) (c : list line) :
  forallb (line_ok sl idf td_dir n) c = true →
  length (key_logits sl idf n k c) = length (bearing sl idf k c).
Proof.
  induction c as [|l c IH]; [done|]. simpl. intros [Hl Hc]%andb_true_iff.
  rewrite key_logits_cons, bearing_cons.
  destruct (decide (line_key sl idf l = Some k)); [|by apply IH].
  unfold line_ok in Hl. destruct (line_key sl idf l); [|discriminate].
  destruct (line_logits n l); [|discriminate]. simpl. f_equal. by apply IH.
Qed.

Lemma bearing_unique (sl : bool) (idf : string) (k : key) (c : list line) (l : line) :
  length (bearing sl idf k c) = 1%nat → l ∈ c → line_key sl idf l = Some k →
  bearing sl idf k c = [l].
Proof.
  intros Hlen Hl Hk.
  assert (Hin : l ∈ bearing sl idf k c) by (by apply list_elem_of_filter).
  destruct (bearing sl idf k c) as [|l' [|]]; try discriminate.
  by apply list_elem_of_singleton in Hin as ->.
Qed.

Lemma all_bearing_nil (sl : bool) (idf : string) (td_dir : gmap string node)
    (k : key) (es : list Z) (n : Z) :
  all_bearing sl idf td_dir k es = [] → n ∈ es →
  bearing sl idf k (epoch_content td_dir n) = [].
Proof.
  unfold all_bearing. induction es as [|m es IH]; intros Hall Hn.
  - by apply elem_of_nil in Hn.
  - rewrite bind_cons in Hall. apply app_eq_nil in Hall as [Hm Hes].
    apply elem_of_cons in Hn as [->|Hn]; [done | by apply IH].
Qed.

Lemma all_bearing_ones (sl : bool) (idf : string) (td_dir : gmap string node)
    (k : key) (num : Z) :
  (∀ j, 0 ≤ j < num → length (bearing sl idf k (epoch_content td_dir j)) = 1%nat) →
  length (all_bearing sl idf td_dir k (range num)) = Z.to_nat num.
Proof.
  intros Hone. unfold all_bearing.
  destruct (bind_singletons (λ n, bearing sl idf k (epoch_content td_dir n)) (range num))
    as [Hlen _].
  - intros j Hj%elem_of_range. by apply Hone.
  - by rewrite Hlen, length_range.
Qed.

Lemma one_char_first (c : ascii) (rest : string) :
  one_char (String c rest) = true →
  is_continuation c = false ∧ all_continuation rest = true.
Proof.
  unfold one_char, is_continuation. intros [Hrest Hc]%andb_true_iff.
  split; [|done]. destruct (Nat.ltb_spec (nat_of_ascii c) 128) as [Hlt|Hge].
  - apply andb_false_iff. left. apply Nat.leb_gt. lia.
  - destruct (Nat.ltb_spec (nat_of_ascii c) 192); [discriminate|].
    apply andb_false_r.
Qed.

Lemma all_continuation_app (s ch : string) :
  one_char ch = true → all_continuation (s +:+ ch) = false.
Proof.
  intros Hch. destruct ch as [|c rest]; [discriminate|].
  apply one_char_first in Hch as [Hc _].
  induction s as [|a s IH]; simpl.
  - by rewrite Hc.
  - change (String a s +:+ String c rest) with (String a (s +:+ String c rest)).
    simpl. rewrite IH. apply andb_false_r.
Qed.

(** Dropping the last character undoes appending one. *)
Lemma str_drop_last_snoc (s ch : string) :
  one_char ch = true → str_drop_last (s +:+ ch) = s.
Proof.
  intros Hch. induction s as [|a s IH].
  - destruct ch as [|c rest]; [discriminate|].
    apply one_char_first in Hch as [_ Hrest].
    change ("" +:+ String c rest) with (String c rest). simpl. by rewrite Hrest.
  - change (String a s +:+ ch) with (String a (s +:+ ch)).
    simpl. by rewrite all_continuation_app, IH.
Qed.

Lemma key_logits_single (sl : bool) (idf : string) (n : Z) (k : key) (l : line)
    (x : json) :
  line_key sl idf l = Some k → line_logits n l = Some x →
  key_logits sl idf n k [l] = [x].
Proof. intros Hk Hx. by rewrite key_logits_cons, decide_True, Hx. Qed.

Lemma first_gold_single (sl : bool) (idf : string) (k : key) (l : line) :
  line_key sl idf l = Some k → first_gold sl idf k [l] = line_gold l.
Proof. intros Hk. by rewrite first_gold_cons, decide_True. Qed.

Lemma process_file_member (sl : bool) (idf : string) (n : Z) (c : list line)
    (td td' : dynamics) (l : line) (k : key) :
  foldM (process_record sl idf n) td c = Ok td' →
  l ∈ c → line_key sl idf l = Some k →
  ∃ e x, dict_get td' k = Some e ∧ line_logits n l = Some x ∧ x ∈ logits e.
Proof.
  revert td. induction c as [|l0 c IH]; intros td H Hl Hk.
  - by apply elem_of_nil in Hl.
  - simpl in H. apply bind_Ok in H as (td1 & H1 & H).
    apply elem_of_cons in Hl as [->|Hl]; [|by eapply IH].
    pose proof (process_record_get _ _ _ _ _ _ k H1) as Hget1.
    apply process_record_Ok in H1 as (k0 & x & Hk0 & Hx & Hcase).
    assert (k0 = k) as -> by congruence.
    rewrite (key_logits_single _ _ _ _ _ _ Hk Hx) in Hget1.
    assert (∃ e1, dict_get td1 k = Some e1 ∧ x ∈ logits e1) as (e1 & He1 & Hx1).
    { destruct (dict_get td k) as [e0|].
      - eexists. split; [done|]. simpl. apply elem_of_app. right.
        by apply list_elem_of_singleton.
      - destruct Hcase as (_ & r & guid & g & _ & _ & Hg & _).
        rewrite (first_gold_single _ _ _ _ Hk), Hg in Hget1. simpl in Hget1.
        eexists. split; [done|]. simpl. by apply list_elem_of_singleton. }
    rewrite (process_file_get _ _ _ _ _ _ k H), He1.
    eexists _, x. split; [done|]. split; [done|]. simpl.
    apply elem_of_app. by left.
Qed.

Lemma read_epochs_member (sl : bool) (idf : string) (td_dir : gmap string node)
    (es : list Z) (td td' : dynamics) (n : Z) (l : line) (k : key) :
  foldM (process_epoch td_dir sl idf) td es = Ok td' →
  n ∈ es → l ∈ epoch_content td_dir n → line_key sl idf l = Some k →
  ∃ e x, dict_get td' k = Some e ∧ line_logits n l = Some x ∧ x ∈ logits e.
Proof.
  revert td. induction es as [|m es IH]; intros td H Hn Hl Hk.
  - by apply elem_of_nil in Hn.
  - simpl in H. apply bind_Ok in H as (td1 & H1 & H).
    apply elem_of_cons in Hn as [->|Hn]; [|by eapply IH].
    apply process_epoch_Ok in H1 as [_ H1].
    destruct (process_file_member _ _ _ _ _ _ _ _ H1 Hl Hk) as (e & x & He & Hx & Hin).
    rewrite (read_epochs_some _ _ _ _ _ _ _ _ H He).
    eexists _, x. split; [done|]. split; [done|]. simpl.
    apply elem_of_app. by left.
Qed.

(** Conversely, a directory that is read to its end is consistent: the
    hypothesis [consistent] of the statements below says no more than
    "the reader returns". *)
Lemma process_file_key (sl : bool) (idf : string) (n : Z) (c : list line)
    (td td' : dynamics) (l : line) :
  foldM (process_record sl idf n) td c = Ok td' → l ∈ c →
  is_Some (line_key sl idf l).
Proof.
  revert td. induction c as [|l0 c IH]; intros td H Hl.
  - by apply elem_of_nil in Hl.
  - simpl in H. apply bind_Ok in H as (td1 & H1 & H).
    apply elem_of_cons in Hl as [->|Hl]; [|by eapply IH].
    apply process_record_Ok in H1 as (k & x & Hk & _). eauto.
Qed.

Lemma read_epochs_consistent (sl : bool) (idf : string) (td_dir : gmap string node)
    (num : Z) (td : dynamics) :
  foldM (process_epoch td_dir sl idf) [] (range num) = Ok td →
  consistent sl idf td_dir num = true.
Proof.
  intros H. unfold consistent. apply forallb_forall. intros n Hn%list_elem_of_In.
  pose proof (read_epochs_exist _ _ _ _ _ _ _ H Hn) as Hfile.
  unfold epoch_ok. rewrite Hfile.
  apply forallb_forall. intros l Hl%list_elem_of_In.
  assert (is_Some (line_key sl idf l)) as [k Hk].
  { clear Hfile. revert H Hn. generalize (@nil (json * entry)) as td0.
    induction (range num) as [|m es IH]; intros td0 H Hn.
    - by apply elem_of_nil in Hn.
    - simpl in H. apply bind_Ok in H as (td1 & H1 & H).
      apply elem_of_cons in Hn as [->|Hn]; [|by eapply IH].
      apply process_epoch_Ok in H1 as [_ H1]. by eapply process_file_key. }
  destruct (read_epochs_member _ _ _ _ _ _ _ _ _ H Hn Hl Hk) as (e & x & He & Hx & _).
  unfold line_ok. rewrite Hk, Hx. apply bool_decide_eq_true.
  rewrite (read_epochs_get _ _ _ _ _ k H) in He.
  destruct (decide (0 < num)); [|discriminate].
  destruct (first_gold sl idf k (epoch_content td_dir 0)); [eauto | discriminate].
Qed.

Lemma read_dynamics_returns_iff (s : split) (model_dir : gmap string dir_entry)
    (td_dir : gmap string node) (sl : bool) (idf : string) (burn_out : option Z) :
  listdir model_dir s = Ok td_dir →
  consistent sl idf td_dir (num_epochs td_dir burn_out) = true ↔
  ∃ td, read_dynamics s model_dir sl idf burn_out = Ok td.
Proof.
  intros Hdir. rewrite (read_dynamics_listed _ _ _ _ _ _ Hdir). split.
  - apply read_epochs_accepts.
  - intros [td H]. by eapply read_epochs_consistent.
Qed.

Lemma dom_two_epochs : dom two_epochs = list_to_set (epoch_file_name <$> range (1 + 1)).
Proof.
  unfold two_epochs. rewrite !dom_insert_L, dom_empty_L.
  change (epoch_file_name <$> range (1 + 1))
    with [epoch_file_name 0; epoch_file_name 1].
  generalize (epoch_file_name 0) (epoch_file_name 1). intros a b. simpl.
  rewrite !(right_id_L ∅ (∪)). apply (comm_L (∪)).
Qed.

(** ** The running example of the specification *)

Example example_read :
  (d ← example_dir; read_training_dynamics d false "guid" None) =
  Ok [(JInt 1, Entry (JInt 1) [json_of_scores [1#10; 9#10]; json_of_scores [2#10; 8#10]]%Q);
      (JInt 2, Entry (JInt 0) [json_of_scores [8#10; 2#10]; json_of_scores [7#10; 3#10]]%Q)].
Proof. vm_compute. reflexivity. Qed.

Example example_dir_is_two_epochs : example_dir = Ok (in_subdir Training two_epochs).
Proof. vm_compute. reflexivity. Qed.

(** * The claims *)

(** ** C1: round trip *)

(** C1, as stated, fails in four ways.  Written for epoch 1 into an
    empty directory, the records cannot be read back: the reader counts
    one file, asks for [dynamics_epoch_0.jsonl] and trips its assertion.
    Written for epoch 0 with the identifier 7 twice, the two records are
    merged into one entry, whose gold label is the first one (0, not the
    second record's 1) and whose history has two score-vectors.  Written
    for epoch 0 with three empty sequences, the file holds one blank
    line, on which [json.loads] raises.  And the score 0.00048828125,
    which has eleven decimals, is read back as 0.0004882812 (in lowest
    terms 1220703 / 2500000000). *)
Lemma C1_round_trip_counterexample :
  (∀ pd : Pandas,
     ∃ d, log_training_dynamics ∅ 1 [IdInt 7] [[1#2]%Q] [0] = Ok d ∧
          read_training_dynamics d false "guid" None = Raise AssertionError) ∧
  (∀ pd : Pandas,
     ∃ d, log_training_dynamics ∅ 0 [IdInt 7; IdInt 7] [[1#2]; [1#4]]%Q [0; 1] = Ok d ∧
          read_training_dynamics d false "guid" None =
          Ok [(JInt 7, Entry (JInt 0) [json_of_scores [1#2]%Q; json_of_scores [1#4]%Q])]) ∧
  (∀ pd : Pandas,
     ∃ d, log_training_dynamics ∅ 0 [] [] [] = Ok d ∧
          read_training_dynamics d false "guid" None = Raise ValueError) ∧
  (∀ pd : Pandas,
     ∃ d, log_training_dynamics ∅ 0 [IdInt 7] [[48828125 # 100000000000]%Q] [0] = Ok d ∧
          read_training_dynamics d false "guid" None =
          Ok [(JInt 7, Entry (JInt 0) [json_of_scores [1220703 # 2500000000]%Q])]).
Proof.
  repeat split; intros pd; eexists; (split; [reflexivity | vm_compute; reflexivity]).
Qed.

(** C1, amended: for non-empty equal-length sequences with pairwise
    distinct identifiers and with scores that [to_json] writes without
    rounding, writing them for epoch 0 into an output directory that has
    no subdirectory of that kind yet and reading the directory back (no
    cutoff, no stripping, identifier field "guid") succeeds and returns,
    in write order, one entry per identifier [ids[i]], with gold label
    [gold_labels[i]] and the one-element history [[score_vectors[i]]].
    Holds for the training and for the evaluation pair, whatever pandas
    does with files that exist. *)
Theorem C1_round_trip_epoch0 {pd : Pandas} (s : split) (output_dir : gmap string dir_entry)
    (ids : list ident) (vs : list (list Q)) (gs : list Z) :
  output_dir !! subdir s = None →
  ids ≠ [] →
  length ids = length vs → length vs = length gs →
  exact_scores vs →
  NoDup ids →
  ∃ d, log_dynamics s output_dir 0 ids vs gs = Ok d ∧
       read_dynamics s d false "guid" None = Ok (merged ids vs gs).
Proof.
  intros Hnone Hne Hl1 Hl2 Hex Hnd. eexists. split.
  - unfold log_dynamics. rewrite new_frame_Ok, Hnone by done. simpl.
    rewrite lookup_empty. reflexivity.
  - erewrite read_dynamics_listed; [|apply listdir_Ok, lookup_insert_eq].
    unfold num_epochs. rewrite count_files_singleton.
    change (range 1) with [0]. simpl.
    erewrite process_epoch_file by apply lookup_insert_eq.
    rewrite to_json_exact by done.
    rewrite read_written_file; [done|done|done].
Qed.

Lemma C1_round_trip_epoch0_witness :
  ∃ d, log_training_dynamics ∅ 0 [IdInt 1; IdStr "b"] [[1#10; 9#10]; [8#10; 2#10]]%Q [1; 0]
       = Ok d ∧
       read_training_dynamics d false "guid" None =
       Ok [(JInt 1, Entry (JInt 1) [json_of_scores [1#10; 9#10]%Q]);
           (JStr "b", Entry (JInt 0) [json_of_scores [8#10; 2#10]%Q])].
Proof.
  apply (C1_round_trip_epoch0 Training ∅ [IdInt 1; IdStr "b"]
           [[1#10; 9#10]; [8#10; 2#10]]%Q [1; 0]).
  - reflexivity.
  - discriminate.
  - reflexivity.
  - reflexivity.
  - repeat (apply list.Forall_cons; split; [|try apply Forall_nil_2]);
      try (vm_compute; reflexivity).
  - apply NoDup_cons_2; [|apply NoDup_singleton].
    intros H%list_elem_of_singleton. discriminate H.
Defined.

(** ** C2: multi-epoch merge *)

(** C2, as stated, fails in two ways.  In [duplicated] ([k = 0]) the
    one epoch file holds instance 1, twice: the reader returns a history
    of length 2 for it, not 1.  In [late_instance] ([k = 1]) both epoch
    files hold instance 1, but instance 3 turns up in epoch 1 only: the
    reader returns no mapping at all. *)
Lemma C2_multi_epoch_merge_counterexample :
  (dom duplicated = list_to_set (epoch_file_name <$> range (0 + 1)) ∧
   bearing false "guid" (int_key 1) (epoch_content duplicated 0) ≠ [] ∧
   ∃ td e,
     read_training_dynamics (in_subdir Training duplicated) false "guid" None = Ok td ∧
     dict_get td (int_key 1) = Some e ∧ length (logits e) = 2%nat) ∧
  (dom late_instance = list_to_set (epoch_file_name <$> range (1 + 1)) ∧
   (∀ j, 0 ≤ j ≤ 1 →
         bearing false "guid" (int_key 1) (epoch_content late_instance j) ≠ []) ∧
   read_training_dynamics (in_subdir Training late_instance) false "guid" None =
     Raise AssertionError).
Proof.
  split; [split; [|split]|split; [|split]].
  - unfold duplicated. rewrite dom_insert_L, dom_empty_L.
    change (epoch_file_name <$> range (0 + 1)) with [epoch_file_name 0]. done.
  - vm_compute. discriminate.
  - eexists _, _. split; [vm_compute; reflexivity|]. split; vm_compute; reflexivity.
  - unfold late_instance. rewrite !dom_insert_L, dom_empty_L.
    change (epoch_file_name <$> range (1 + 1))
      with [epoch_file_name 0; epoch_file_name 1].
    generalize (epoch_file_name 0) (epoch_file_name 1). intros a b. simpl.
    rewrite !(right_id_L ∅ (∪)). apply (comm_L (∪)).
  - intros j Hj. assert (j = 0 ∨ j = 1) as [-> | ->] by lia; vm_compute; discriminate.
  - vm_compute. reflexivity.
Qed.

(** C2, amended: take a subdirectory that holds exactly the epoch files
    [0 .. k] and is [consistent] (by [read_dynamics_returns_iff]: on which
    the reader returns at all), and an instance present in each of these
    files, with exactly one record per file.  Then either reader, without
    cutoff, returns a mapping in which the history of that instance has
    length [k + 1] and has at position [j] the score-vector recorded in
    the file of epoch [j]. *)
Theorem C2_multi_epoch_merge (s : split) (model_dir : gmap string dir_entry)
    (td_dir : gmap string node) (sl : bool) (idf : string) (k : Z) (g : key) :
  listdir model_dir s = Ok td_dir →
  0 ≤ k →
  dom td_dir = list_to_set (epoch_file_name <$> range (k + 1)) →
  consistent sl idf td_dir (k + 1) = true →
  (∀ j, 0 ≤ j ≤ k → length (bearing sl idf g (epoch_content td_dir j)) = 1%nat) →
  ∃ td e,
    read_dynamics s model_dir sl idf None = Ok td ∧
    dict_get td g = Some e ∧
    length (logits e) = Z.to_nat (k + 1) ∧
    ∀ j l, 0 ≤ j ≤ k → l ∈ epoch_content td_dir j → line_key sl idf l = Some g →
           logits e !! Z.to_nat j = line_logits j l.
Proof.
  intros Hdir Hk Hdom Hok Hone.
  assert (Hfiles : ∀ j, 0 ≤ j < k + 1 →
            ∃ c, td_dir !! epoch_file_name j = Some (RegFile c) ∧
                 forallb (line_ok sl idf td_dir j) c = true)
    by (intros j Hj; by eapply epoch_ok_file).
  assert (Hcount : count_files td_dir = k + 1).
  { apply count_files_epochs; [lia|done|].
    intros j Hj. destruct (Hfiles j Hj) as (c & Hc & _). eauto. }
  rewrite (read_dynamics_listed _ _ _ _ _ _ Hdir). unfold num_epochs. rewrite Hcount.
  destruct (read_epochs_accepts sl idf td_dir (k + 1) Hok) as [td Htd].
  pose proof (read_epochs_get sl idf td_dir _ _ g Htd) as Hget.
  rewrite decide_True in Hget by lia.
  assert (Hlen : ∀ j, j ∈ range (k + 1) →
            length (key_logits sl idf j g (epoch_content td_dir j)) = 1%nat).
  { intros j Hj%elem_of_range. rewrite <- (Hone j) by lia.
    destruct (Hfiles j Hj) as (c & Hc & Hlines).
    unfold epoch_content. rewrite Hc. by eapply key_logits_accepted. }
  destruct (bind_singletons _ _ Hlen) as [Hlength Hnth].
  assert (Hgold : is_Some (first_gold sl idf g (epoch_content td_dir 0))).
  { destruct (Hfiles 0) as (c & Hc & Hlines); [lia|].
    assert (Hc0 : epoch_content td_dir 0 = c) by (unfold epoch_content; by rewrite Hc).
    specialize (Hone 0). rewrite Hc0 in Hone.
    destruct (bearing sl idf g c) as [|l0 ?] eqn:Hb; [simpl in Hone; lia|].
    assert (Hl0 : l0 ∈ bearing sl idf g c) by (rewrite Hb; apply elem_of_cons; by left).
    apply list_elem_of_filter in Hl0 as [Hk0 Hin].
    rewrite forallb_forall in Hlines.
    specialize (Hlines l0 (proj1 (list_elem_of_In _ _) Hin)).
    unfold line_ok in Hlines. rewrite Hk0 in Hlines.
    destruct (line_logits 0 l0); [|discriminate].
    by apply bool_decide_eq_true in Hlines. }
  destruct Hgold as [g0 Hg0]. rewrite Hg0 in Hget. simpl in Hget.
  exists td, (Entry g0 (all_logits sl idf td_dir g (range (k + 1)))).
  split; [done|]. split; [done|]. simpl. unfold all_logits. split.
  - by rewrite Hlength, length_range.
  - intros j l Hj Hl Hkey.
    rewrite (Hnth (Z.to_nat j) j) by (apply range_lookup; lia).
    unfold key_logits. rewrite (bearing_unique sl idf g _ l) by (auto with lia).
    pose proof (Hlen j) as Hj1. unfold key_logits in Hj1.
    rewrite (bearing_unique sl idf g _ l) in Hj1 by (auto with lia).
    simpl in *. destruct (line_logits j l); [done|].
    simpl in Hj1. specialize (Hj1 ltac:(apply elem_of_range; lia)). discriminate.
Qed.

Lemma C2_multi_epoch_merge_witness :
  ∃ td e,
    read_training_dynamics (in_subdir Training two_epochs) false "guid" None = Ok td ∧
    dict_get td (int_key 2) = Some e ∧
    length (logits e) = 2%nat ∧
    ∀ j l, 0 ≤ j ≤ 1 → l ∈ epoch_content two_epochs j →
           line_key false "guid" l = Some (int_key 2) →
           logits e !! Z.to_nat j = line_logits j l.
Proof.
  apply (C2_multi_epoch_merge Training (in_subdir Training two_epochs) two_epochs
           false "guid" 1 (int_key 2)).
  - reflexivity.
  - lia.
  - apply dom_two_epochs.
  - vm_compute. reflexivity.
  - intros j Hj. assert (j = 0 ∨ j = 1) as [-> | ->] by lia; vm_compute; reflexivity.
Defined.

(** ** C3: merge-append on write *)

(** What a write leaves in an epoch file that exists already is
    [rewritten old td_df]: pandas' reading of the stored text, joined
    with the new frame and written again.  The source fixes what
    surrounds this: the frame is built before the directory is looked at,
    the result replaces the file, and nothing else is touched. *)
Lemma write_to_existing_file {pd : Pandas} (s : split) (output_dir : gmap string dir_entry)
    (logging_dir : gmap string node) (epoch : Z) (old : list line)
    (ids : list ident) (vs : list (list Q)) (gs : list Z) :
  output_dir !! subdir s = Some (Folder logging_dir) →
  logging_dir !! epoch_file_name epoch = Some (RegFile old) →
  length ids = length vs → length vs = length gs →
  log_dynamics s output_dir epoch ids vs gs =
  content ← rewritten old (zip_rows epoch ids vs gs);
  Ok (<[subdir s := Folder (<[epoch_file_name epoch := RegFile content]> logging_dir)]>
        output_dir).
Proof.
  intros Hdir Hfile Hl1 Hl2. unfold log_dynamics.
  rewrite new_frame_Ok, Hdir by done. simpl. by rewrite Hfile.
Qed.

(** ** C4: a key first seen after epoch 0 *)

(** C4: let the file of an epoch [n > 0] that the reader iterates over
    hold a line [l] with key [k].  If the reader gets as far as [l] (the
    earlier epochs and the earlier lines of the file went through) and
    [k] is not in the mapping at that point, the call ends in an
    [AssertionError].  In particular, when no line of the file of epoch 0
    has key [k], the reader does not return a mapping. *)
Theorem C4_first_seen_after_epoch0 (s : split) (model_dir : gmap string dir_entry)
    (td_dir : gmap string node) (sl : bool) (idf : string) (burn_out : option Z)
    (n : Z) (pre post : list line) (l : line) (k : key) :
  listdir model_dir s = Ok td_dir →
  0 < n < num_epochs td_dir burn_out →
  td_dir !! epoch_file_name n = Some (RegFile (pre ++ l :: post)) →
  line_key sl idf l = Some k →
  (∀ td1 td2,
     foldM (process_epoch td_dir sl idf) [] (range n) = Ok td1 →
     foldM (process_record sl idf n) td1 pre = Ok td2 →
     dict_get td2 k = None →
     read_dynamics s model_dir sl idf burn_out = Raise AssertionError) ∧
  (bearing sl idf k (epoch_content td_dir 0) = [] →
   ∀ td, read_dynamics s model_dir sl idf burn_out ≠ Ok td).
Proof.
  intros Hdir Hn Hfile Hk.
  rewrite (read_dynamics_listed _ _ _ _ _ _ Hdir). split.
  - intros td1 td2 H1 H2 Hget.
    destruct (range_split (num_epochs td_dir burn_out) n) as [rest ->]; [lia|].
    rewrite foldM_app, H1. simpl.
    rewrite (process_epoch_file _ _ _ _ _ _ Hfile), foldM_app, H2. simpl.
    rewrite (process_record_first_late sl idf n td2 l k) by (done || lia). done.
  - intros Hb td Htd.
    rewrite range_pos in Htd by lia. simpl in Htd.
    apply bind_Ok in Htd as (td1 & H1 & Htd).
    apply process_epoch_Ok in H1 as [_ H1].
    pose proof (process_file_get _ _ _ _ _ _ k H1) as Hget1. simpl in Hget1.
    unfold first_gold in Hget1. rewrite Hb in Hget1. simpl in Hget1.
    destruct (read_epochs_none _ _ _ _ _ _ k Htd (range_tail_no_zero _) Hget1)
      as [_ Hall].
    assert (Hin : n ∈ Z.succ <$> range (num_epochs td_dir burn_out - 1)).
    { apply list_elem_of_fmap. exists (n - 1). split; [lia|]. apply elem_of_range. lia. }
    pose proof (all_bearing_nil _ _ _ _ _ _ Hall Hin) as Hbn.
    unfold epoch_content in Hbn. rewrite Hfile in Hbn.
    assert (Hl : l ∈ bearing sl idf k (pre ++ l :: post)).
    { apply list_elem_of_filter. split; [done|]. apply elem_of_app. right.
      apply elem_of_cons. by left. }
    rewrite Hbn in Hl. by apply elem_of_nil in Hl.
Qed.

Lemma C4_first_seen_after_epoch0_witness :
  read_eval_dynamics (in_subdir Evaluation late_instance) false "guid" None =
    Raise AssertionError ∧
  ∀ td, read_eval_dynamics (in_subdir Evaluation late_instance) false "guid" None ≠ Ok td.
Proof.
  assert (Hdir : listdir (in_subdir Evaluation late_instance) Evaluation = Ok late_instance)
    by reflexivity.
  assert (Hn : 0 < 1 < num_epochs late_instance None) by (vm_compute; split; reflexivity).
  assert (Hfile : late_instance !! epoch_file_name 1 =
            Some (RegFile (to_json (zip_rows 1 [IdInt 1] [[2#10; 8#10]]%Q [1]) ++
                           Some (JObj (make_row 1 (IdInt 3) [5#10; 5#10]%Q 0)) :: [])))
    by (vm_compute; reflexivity).
  assert (Hk : line_key false "guid" (Some (JObj (make_row 1 (IdInt 3) [5#10; 5#10]%Q 0)))
               = Some (int_key 3)) by (vm_compute; reflexivity).
  destruct (C4_first_seen_after_epoch0 Evaluation _ _ false "guid" None 1 _ _ _ _
              Hdir Hn Hfile Hk) as [Hreach Habsent].
  split.
  - eapply Hreach; vm_compute; reflexivity.
  - apply Habsent. vm_compute. reflexivity.
Defined.

(** ** C5: a missing epoch file *)

(** C5: if the file of an epoch [n] in [0 .. num_epochs - 1] is missing,
    the call does what reading the epochs before [n] does and then, if
    these went through, ends in an [AssertionError]; what the epochs after
    [n] hold plays no role.  So the reader never returns a mapping, and it
    raises the [AssertionError] whenever it gets as far as epoch [n]. *)
Theorem C5_missing_epoch_file (s : split) (model_dir : gmap string dir_entry)
    (td_dir : gmap string node) (sl : bool) (idf : string) (burn_out : option Z)
    (n : Z) :
  listdir model_dir s = Ok td_dir →
  0 ≤ n < num_epochs td_dir burn_out →
  td_dir !! epoch_file_name n = None →
  read_dynamics s model_dir sl idf burn_out =
    (foldM (process_epoch td_dir sl idf) [] (range n) ≫= λ _, Raise AssertionError) ∧
  (∀ td_n, foldM (process_epoch td_dir sl idf) [] (range n) = Ok td_n →
           read_dynamics s model_dir sl idf burn_out = Raise AssertionError) ∧
  (∀ td, read_dynamics s model_dir sl idf burn_out ≠ Ok td).
Proof.
  intros Hdir Hn Hfile.
  assert (Heq : read_dynamics s model_dir sl idf burn_out =
    (foldM (process_epoch td_dir sl idf) [] (range n) ≫= λ _, Raise AssertionError)).
  { rewrite (read_dynamics_listed _ _ _ _ _ _ Hdir).
    destruct (range_split (num_epochs td_dir burn_out) n) as [rest ->]; [lia|].
    rewrite foldM_app.
    destruct (foldM (process_epoch td_dir sl idf) [] (range n)) as [td_n|e]; [|done].
    simpl. by rewrite process_epoch_missing. }
  split; [done|]. rewrite Heq. split.
  - by intros td_n ->.
  - intros td. by destruct (foldM (process_epoch td_dir sl idf) [] (range n)).
Qed.

Lemma C5_missing_epoch_file_witness :
  read_training_dynamics (in_subdir Training gap_at_1) false "guid" None =
    Raise AssertionError ∧
  ∀ td, read_training_dynamics (in_subdir Training gap_at_1) false "guid" None ≠ Ok td.
Proof.
  assert (Hdir : listdir (in_subdir Training gap_at_1) Training = Ok gap_at_1)
    by reflexivity.
  assert (Hn : 0 ≤ 1 < num_epochs gap_at_1 None).
  { vm_compute. split; [discriminate | reflexivity]. }
  assert (Hfile : gap_at_1 !! epoch_file_name 1 = None) by (vm_compute; reflexivity).
  destruct (C5_missing_epoch_file Training _ _ false "guid" None 1 Hdir Hn Hfile)
    as (_ & Hreach & Hnever).
  split; [|done]. eapply Hreach. vm_compute. reflexivity.
Defined.

(** ** C6: the cutoff *)

(** C6, as stated, fails for the cutoff 0: [if burn_out:] takes 0 for
    "no cutoff".  On the two-epoch example the reader then goes through
    both files and returns histories of length 2, where the claim has it
    read no file at all. *)
Lemma C6_burn_out_counterexample :
  num_epochs two_epochs (Some 0) = 2 ∧
  read_training_dynamics (in_subdir Training two_epochs) false "guid" (Some 0) =
  Ok [(JInt 1, Entry (JInt 1) [json_of_scores [1#10; 9#10]; json_of_scores [2#10; 8#10]]%Q);
      (JInt 2, Entry (JInt 0) [json_of_scores [8#10; 2#10]; json_of_scores [7#10; 3#10]]%Q)].
Proof. split; vm_compute; reflexivity. Qed.

(** C6, amended: for every supplied cutoff other than 0, [num_epochs] is
    the cutoff and not the count of files: the reader goes through
    [range(cutoff)], that is through the epochs [0 .. cutoff - 1] for a
    positive cutoff; what the subdirectory holds under any other name
    makes no difference to the result; a consistent directory is read to
    the end; and in the returned mapping an instance with one record in
    each of these epochs has a history of length [cutoff]. *)
Theorem C6_burn_out_nonzero (s : split) (model_dir : gmap string dir_entry)
    (td_dir : gmap string node) (sl : bool) (idf : string) (cutoff : Z) :
  listdir model_dir s = Ok td_dir →
  cutoff ≠ 0 →
  num_epochs td_dir (Some cutoff) = cutoff ∧
  read_dynamics s model_dir sl idf (Some cutoff) =
    foldM (process_epoch td_dir sl idf) [] (range cutoff) ∧
  (∀ model_dir' td_dir',
     listdir model_dir' s = Ok td_dir' →
     (∀ j, 0 ≤ j < cutoff →
           td_dir' !! epoch_file_name j = td_dir !! epoch_file_name j) →
     read_dynamics s model_dir' sl idf (Some cutoff) =
     read_dynamics s model_dir sl idf (Some cutoff)) ∧
  (consistent sl idf td_dir cutoff = true →
   ∃ td, read_dynamics s model_dir sl idf (Some cutoff) = Ok td) ∧
  (∀ td k e,
     read_dynamics s model_dir sl idf (Some cutoff) = Ok td →
     dict_get td k = Some e →
     (∀ j, 0 ≤ j < cutoff →
           length (bearing sl idf k (epoch_content td_dir j)) = 1%nat) →
     length (logits e) = Z.to_nat cutoff).
Proof.
  intros Hdir Hc.
  assert (Hnum : num_epochs td_dir (Some cutoff) = cutoff)
    by (unfold num_epochs; by rewrite decide_False).
  assert (Hread : read_dynamics s model_dir sl idf (Some cutoff) =
                  foldM (process_epoch td_dir sl idf) [] (range cutoff))
    by (by rewrite (read_dynamics_listed _ _ _ _ _ _ Hdir), Hnum).
  split; [done|]. split; [done|]. split; [|split].
  - intros model_dir' td_dir' Hdir' Hsame. rewrite Hread.
    rewrite (read_dynamics_listed _ _ _ _ _ _ Hdir').
    unfold num_epochs. rewrite decide_False by done.
    apply foldM_ext. intros td j Hj%elem_of_range.
    unfold process_epoch. by rewrite Hsame.
  - intros Hok. rewrite Hread. by apply read_epochs_accepts.
  - intros td k e Htd Hget Hone. rewrite Hread in Htd.
    rewrite (read_epochs_get _ _ _ _ _ k Htd) in Hget.
    destruct (decide (0 < cutoff)); [|discriminate].
    destruct (first_gold sl idf k (epoch_content td_dir 0)); [|discriminate].
    injection Hget as <-. simpl.
    rewrite (read_epochs_logits _ _ _ _ _ _ k Htd). by apply all_bearing_ones.
Qed.

Lemma C6_burn_out_nonzero_witness :
  num_epochs two_epochs (Some 1) = 1 ∧
  read_training_dynamics
    (in_subdir Training (delete (epoch_file_name 1) two_epochs)) false "guid" (Some 1) =
  read_training_dynamics (in_subdir Training two_epochs) false "guid" (Some 1) ∧
  ∃ td e, read_training_dynamics (in_subdir Training two_epochs) false "guid" (Some 1)
          = Ok td ∧
          dict_get td (int_key 2) = Some e ∧ length (logits e) = 1%nat.
Proof.
  assert (Hdir : listdir (in_subdir Training two_epochs) Training = Ok two_epochs)
    by reflexivity.
  assert (Hc : 1 ≠ 0) by lia.
  destruct (C6_burn_out_nonzero Training _ _ false "guid" 1 Hdir Hc)
    as (Hnum & _ & Hsame & Hacc & Hlen).
  split; [done|]. split.
  - apply (Hsame _ (delete (epoch_file_name 1) two_epochs)); [reflexivity|].
    intros j Hj. assert (j = 0) as -> by lia. vm_compute. reflexivity.
  - destruct Hacc as [td Htd]; [vm_compute; reflexivity|].
    assert (He : is_Some (dict_get td (int_key 2))).
    { vm_compute in Htd. injection Htd as <-. vm_compute. eauto. }
    destruct He as [e He]. exists td, e. split; [done|]. split; [done|].
    apply (Hlen td (int_key 2) e Htd He).
    intros j Hj. assert (j = 0) as -> by lia. vm_compute. reflexivity.
Defined.

(** ** C7: the epoch count without cutoff *)

(** C7: without cutoff the reader takes as number of epochs the number
    of entries of the subdirectory that are regular files (entries of
    another kind are not counted).  It then goes through the epochs from
    0 up to that count: it returns a mapping only if each of
    [dynamics_epoch_0.jsonl] .. [dynamics_epoch_<count-1>.jsonl] is
    there, as a file, and a missing one ends the call in an
    [AssertionError] once the epochs before it are read.  For a
    subdirectory whose regular files are exactly the epoch files
    [0 .. k - 1], the count is [k]. *)
Theorem C7_epoch_count_from_listing (s : split) (model_dir : gmap string dir_entry)
    (td_dir : gmap string node) (sl : bool) (idf : string) :
  listdir model_dir s = Ok td_dir →
  num_epochs td_dir None = Z.of_nat (size (filter (λ kv, regular kv.2) td_dir)) ∧
  (∀ td, read_dynamics s model_dir sl idf None = Ok td →
     ∀ j, 0 ≤ j < num_epochs td_dir None →
          ∃ c, td_dir !! epoch_file_name j = Some (RegFile c)) ∧
  (∀ j td_j, 0 ≤ j < num_epochs td_dir None →
     td_dir !! epoch_file_name j = None →
     foldM (process_epoch td_dir sl idf) [] (range j) = Ok td_j →
     read_dynamics s model_dir sl idf None = Raise AssertionError) ∧
  (∀ k, 0 ≤ k → epoch_files_only td_dir k → num_epochs td_dir None = k).
Proof.
  intros Hdir. split; [apply count_files_regular|]. split; [|split].
  - intros td Htd j Hj. rewrite (read_dynamics_listed _ _ _ _ _ _ Hdir) in Htd.
    eexists. eapply read_epochs_exist; [done|]. by apply elem_of_range.
  - intros j td_j Hj Hnone Hpre. rewrite (read_dynamics_listed _ _ _ _ _ _ Hdir).
    destruct (range_split (num_epochs td_dir None) j) as [rest ->]; [lia|].
    rewrite foldM_app, Hpre. simpl. by rewrite process_epoch_missing.
  - intros k Hk Honly. by apply count_files_epoch_files_only.
Qed.

Lemma C7_epoch_count_from_listing_witness :
  size with_checkpoints = 3%nat ∧
  num_epochs with_checkpoints None = 1 + 1 ∧
  ∃ td, read_training_dynamics (in_subdir Training with_checkpoints) false "guid" None
        = Ok td.
Proof.
  assert (Hdir : listdir (in_subdir Training with_checkpoints) Training
                 = Ok with_checkpoints) by reflexivity.
  destruct (C7_epoch_count_from_listing Training _ _ false "guid" Hdir)
    as (_ & _ & _ & Hcount).
  split; [vm_compute; reflexivity|]. split; [|eexists; vm_compute; reflexivity].
  apply Hcount; [lia|]. intros name. split.
  - intros [c Hc]. unfold with_checkpoints, two_epochs in Hc.
    apply lookup_insert_Some in Hc as [[_ Hc]|[_ Hc]]; [discriminate|].
    apply lookup_insert_Some in Hc as [[<- _]|[_ Hc]]; [exists 1; split; [lia|done]|].
    apply lookup_insert_Some in Hc as [[<- _]|[_ Hc]]; [exists 0; split; [lia|done]|].
    by rewrite lookup_empty in Hc.
  - intros (j & Hj & ->).
    assert (j = 0 ∨ j = 1) as [-> | ->] by lia; eexists; vm_compute; reflexivity.
Defined.

(** ** C8: identifier truncation *)

(** C8, as stated, fails for identifiers that are no strings.  The
    writers take integer identifiers and store them as integers; with the
    flag set, the reader slices the integer and ends in a [TypeError]:
    the record is merged under no key, and the call returns nothing. *)
Lemma C8_identifier_truncation_counterexample :
  getitem (JObj (make_row 0 (IdInt 12) [1#2]%Q 1)) "guid" = Ok (JInt 12) ∧
  process_record true "guid" 0 [] (Some (JObj (make_row 0 (IdInt 12) [1#2]%Q 1))) =
    Raise TypeError ∧
  ∀ pd : Pandas,
    ∃ d, log_training_dynamics ∅ 0 [IdInt 12] [[1#2]%Q] [1] = Ok d ∧
         read_training_dynamics d true "guid" None = Raise TypeError.
Proof.
  split; [reflexivity|]. split; [vm_compute; reflexivity|].
  intros pd. eexists. split; [reflexivity | vm_compute; reflexivity].
Qed.

(** C8, amended: with the strip-last-character flag set, a record whose
    identifier field holds a string [s' ++ ch], [ch] being one character
    (in UTF-8 one byte, or a first byte with its continuation bytes),
    gets the key [s'], and the loop body files its score-vector under
    [s']; so in the mapping that either reader returns, the score-vector
    of every such line read is in the history stored under [s']. *)
Theorem C8_identifier_truncation (idf : string) (s' ch : string) (r : json) :
  one_char ch = true →
  getitem r idf = Ok (JStr (s' +:+ ch)) →
  record_key true idf r = Ok (JStr s', KStr s') ∧
  (∀ n td td',
     process_record true idf n td (Some r) = Ok td' →
     ∃ e x, dict_get td' (KStr s') = Some e ∧
            getitem r (logits_field n) = Ok x ∧ list.last (logits e) = Some x) ∧
  (∀ s model_dir td_dir burn_out td n,
     listdir model_dir s = Ok td_dir →
     read_dynamics s model_dir true idf burn_out = Ok td →
     0 ≤ n < num_epochs td_dir burn_out →
     Some r ∈ epoch_content td_dir n →
     ∃ e x, dict_get td (KStr s') = Some e ∧
            getitem r (logits_field n) = Ok x ∧ x ∈ logits e).
Proof.
  intros Hch Hid.
  assert (Hkey : record_key true idf r = Ok (JStr s', KStr s')).
  { unfold record_key. rewrite Hid. simpl. by rewrite str_drop_last_snoc. }
  assert (Hlk : line_key true idf (Some r) = Some (KStr s'))
    by (simpl; by rewrite Hkey).
  split; [done|]. split.
  - intros n td td' H.
    pose proof (process_record_get _ _ _ _ _ _ (KStr s') H) as Hget.
    apply process_record_Ok in H as (k0 & x & Hk0 & Hx & Hcase).
    assert (k0 = KStr s') as -> by congruence.
    assert (Hgx : getitem r (logits_field n) = Ok x).
    { unfold line_logits, line_field in Hx.
      destruct (getitem r (logits_field n)); congruence. }
    rewrite (key_logits_single _ _ _ _ _ _ Hlk Hx) in Hget.
    destruct (dict_get td (KStr s')) as [e0|].
    + eexists _, x. split; [done|]. split; [done|]. simpl. by rewrite last_snoc.
    + destruct Hcase as (_ & r' & guid & g & _ & _ & Hg & _).
      rewrite (first_gold_single _ _ _ _ Hlk), Hg in Hget. simpl in Hget.
      eexists _, x. split; [done|]. split; [done|]. done.
  - intros s model_dir td_dir burn_out td n Hdir Htd Hn Hin.
    rewrite (read_dynamics_listed _ _ _ _ _ _ Hdir) in Htd.
    assert (Hn' : n ∈ range (num_epochs td_dir burn_out)) by (by apply elem_of_range).
    destruct (read_epochs_member _ _ _ _ _ _ n (Some r) (KStr s') Htd Hn' Hin Hlk)
      as (e & x & He & Hx & Hxe).
    exists e, x. split; [done|]. split; [|done].
    unfold line_logits, line_field in Hx.
    destruct (getitem r (logits_field n)); congruence.
Qed.

Lemma C8_identifier_truncation_witness :
  record_key true "guid" abc1_record = Ok (JStr "abc", KStr "abc") ∧
  record_key true "guid" (JObj [("guid", JStr "ab€")]) = Ok (JStr "ab", KStr "ab") ∧
  ∃ e, (td' ← process_record true "guid" 0 [] (Some abc1_record);
        Ok (dict_get td' (KStr "abc"))) = Ok (Some e) ∧
       logits e = [json_of_scores [1#10; 9#10]%Q].
Proof.
  assert (Hid : getitem abc1_record "guid" = Ok (JStr ("abc" +:+ "1"))) by reflexivity.
  assert (Hch : one_char "1" = true) by reflexivity.
  destruct (C8_identifier_truncation "guid" "abc" "1" abc1_record Hch Hid) as (Hkey & _ & _).
  split; [done|]. split.
  - apply (C8_identifier_truncation "guid" "ab" "€" (JObj [("guid", JStr "ab€")]));
      reflexivity.
  - eexists. split; vm_compute; reflexivity.
Defined.

(** ** C9: the gold label comes from the first encounter *)

(** C9: a directory that is [consistent] (which asks a gold field of
    the first line of each key in epoch 0, and of no other line) is read
    to the end, and in the returned mapping the gold label stored for a
    key is the gold field of the first line of the file of epoch 0 that
    has this key.  The gold field of a line whose key is already in the
    mapping is not looked at: two records that agree on the identifier
    and on the score-vector are processed alike, whatever their gold
    fields. *)
Theorem C9_gold_from_first_encounter (s : split) (model_dir : gmap string dir_entry)
    (td_dir : gmap string node) (sl : bool) (idf : string) (burn_out : option Z) :
  listdir model_dir s = Ok td_dir →
  consistent sl idf td_dir (num_epochs td_dir burn_out) = true →
  (∃ td, read_dynamics s model_dir sl idf burn_out = Ok td ∧
     ∀ k e, dict_get td k = Some e →
            first_gold sl idf k (epoch_content td_dir 0) = Some (gold e)) ∧
  (∀ n td r r' k,
     line_key sl idf (Some r) = Some k → is_Some (dict_get td k) →
     record_key sl idf r' = record_key sl idf r →
     getitem r' (logits_field n) = getitem r (logits_field n) →
     process_record sl idf n td (Some r') = process_record sl idf n td (Some r)).
Proof.
  intros Hdir Hok. split.
  - rewrite (read_dynamics_listed _ _ _ _ _ _ Hdir).
    destruct (read_epochs_accepts _ _ _ _ Hok) as [td Htd].
    exists td. split; [done|]. intros k e Hget.
    rewrite (read_epochs_get _ _ _ _ _ k Htd) in Hget.
    destruct (decide (0 < num_epochs td_dir burn_out)); [|discriminate].
    destruct (first_gold sl idf k (epoch_content td_dir 0)); [|discriminate].
    by injection Hget as <-.
  - intros n td r r' k Hk [e He] Hkey Hlogits.
    unfold process_record. simpl in *. rewrite Hkey, Hlogits.
    destruct (record_key sl idf r) as [[guid k']|]; [|done].
    injection Hk as ->. simpl. by rewrite He.
Qed.

Lemma C9_gold_from_first_encounter_witness :
  line_gold <$> epoch_content gold_changes 1 = [Some (JInt 0)] ∧
  ∃ td e, read_eval_dynamics (in_subdir Evaluation gold_changes) false "guid" None = Ok td ∧
          dict_get td (int_key 1) = Some e ∧ gold e = JInt 1.
Proof.
  assert (Hdir : listdir (in_subdir Evaluation gold_changes) Evaluation = Ok gold_changes)
    by reflexivity.
  assert (Hok : consistent false "guid" gold_changes (num_epochs gold_changes None) = true)
    by (vm_compute; reflexivity).
  destruct (C9_gold_from_first_encounter Evaluation _ _ false "guid" None Hdir Hok)
    as ((td & Htd & Hgold) & _).
  split; [vm_compute; reflexivity|].
  assert (He : is_Some (dict_get td (int_key 1))).
  { vm_compute in Htd. injection Htd as <-. vm_compute. eauto. }
  destruct He as [e He]. exists td, e. split; [done|]. split; [done|].
  specialize (Hgold _ _ He).
  assert (Hfirst : first_gold false "guid" (int_key 1) (epoch_content gold_changes 0)
                   = Some (JInt 1)) by (vm_compute; reflexivity).
  congruence.
Defined.

(** ** C10: duplicate keys within an epoch *)

(** C10: [consistent] puts no bound on how often a key occurs in a file,
    in epoch 0 or later.  A consistent directory is read to the end
    without any exception, and in the returned mapping the history of a
    key holds the score-vector of every line bearing that key, in reading
    order; so its length is the number of such lines in all the epoch
    files read.  (The witness has one epoch file and a history of length
    2.) *)
Theorem C10_duplicates_inflate_history (s : split) (model_dir : gmap string dir_entry)
    (td_dir : gmap string node) (sl : bool) (idf : string) (burn_out : option Z) :
  listdir model_dir s = Ok td_dir →
  consistent sl idf td_dir (num_epochs td_dir burn_out) = true →
  ∃ td, read_dynamics s model_dir sl idf burn_out = Ok td ∧
    ∀ k e, dict_get td k = Some e →
           logits e = all_logits sl idf td_dir k (range (num_epochs td_dir burn_out)) ∧
           length (logits e) =
           length (all_bearing sl idf td_dir k (range (num_epochs td_dir burn_out))).
Proof.
  intros Hdir Hok. rewrite (read_dynamics_listed _ _ _ _ _ _ Hdir).
  destruct (read_epochs_accepts _ _ _ _ Hok) as [td Htd].
  exists td. split; [done|]. intros k e Hget.
  rewrite (read_epochs_get _ _ _ _ _ k Htd) in Hget.
  destruct (decide (0 < num_epochs td_dir burn_out)); [|discriminate].
  destruct (first_gold sl idf k (epoch_content td_dir 0)); [|discriminate].
  injection Hget as <-. simpl. split; [done|]. by eapply read_epochs_logits.
Qed.

Lemma C10_duplicates_inflate_history_witness :
  count_files duplicated = 1 ∧
  ∃ td e, read_training_dynamics (in_subdir Training duplicated) false "guid" None = Ok td ∧
          dict_get td (int_key 1) = Some e ∧ length (logits e) = 2%nat.
Proof.
  assert (Hdir : listdir (in_subdir Training duplicated) Training = Ok duplicated)
    by reflexivity.
  assert (Hok : consistent false "guid" duplicated (num_epochs duplicated None) = true)
    by (vm_compute; reflexivity).
  destruct (C10_duplicates_inflate_history Training _ _ false "guid" None Hdir Hok)
    as (td & Htd & Hlen).
  split; [vm_compute; reflexivity|].
  assert (He : is_Some (dict_get td (int_key 1))).
  { vm_compute in Htd. injection Htd as <-. vm_compute. eauto. }
  destruct He as [e He]. exists td, e. split; [done|]. split; [done|].
  destruct (Hlen _ _ He) as [_ ->]. vm_compute. reflexivity.
Defined.

(** * Further properties of the writers and readers *)

(** ** The writers, as a function of the directory *)

#[global] Instance subdir_inj : Inj (=) (=) subdir.
Proof. by intros [] [] H. Qed.

(** Each writer is this function of its arguments. *)
Lemma log_dynamics_with_file {pd : Pandas} (s : split) (output_dir : gmap string dir_entry)
    (epoch : Z) (ids : list ident) (vs : list (list Q)) (gs : list Z) :
  log_dynamics s output_dir epoch ids vs gs =
  if decide (length ids = length vs ∧ length vs = length gs)
  then match output_dir !! subdir s with
       | Some NotADir => Raise OSError
       | _ => content ← new_content (logging_dir_of s output_dir) epoch
                          (zip_rows epoch ids vs gs);
              Ok (with_file s output_dir epoch content)
       end
  else Raise ValueError.
Proof.
  unfold log_dynamics, new_frame, new_content, with_file, logging_dir_of.
  destruct (decide (length ids = length vs ∧ length vs = length gs)); [|done]. simpl.
  by destruct (output_dir !! subdir s) as [[f|]|].
Qed.

Lemma log_dynamics_Ok {pd : Pandas} (s : split) (output_dir d : gmap string dir_entry)
    (epoch : Z) (ids : list ident) (vs : list (list Q)) (gs : list Z) :
  log_dynamics s output_dir epoch ids vs gs = Ok d ↔
  (length ids = length vs ∧ length vs = length gs) ∧
  output_dir !! subdir s ≠ Some NotADir ∧
  ∃ content,
    new_content (logging_dir_of s output_dir) epoch (zip_rows epoch ids vs gs) = Ok content ∧
    d = with_file s output_dir epoch content.
Proof.
  rewrite log_dynamics_with_file. split.
  - destruct (decide (length ids = length vs ∧ length vs = length gs)); [|done].
    destruct (output_dir !! subdir s) as [[f|]|]; [|done|];
      intros (content & Hc & [= <-])%bind_Ok; eauto.
  - intros (Hlen & Hdir & content & Hc & ->). rewrite decide_True by done.
    destruct (output_dir !! subdir s) as [[f|]|]; [|done|]; by rewrite Hc.
Qed.

Lemma logging_dir_of_with_file (s : split) (output_dir : gmap string dir_entry)
    (epoch : Z) (content : list line) :
  logging_dir_of s (with_file s output_dir epoch content) =
  <[epoch_file_name epoch := RegFile content]> (logging_dir_of s output_dir).
Proof. unfold with_file. unfold logging_dir_of at 1. by rewrite lookup_insert_eq. Qed.

Lemma with_file_lookup_ne (s s' : split) (output_dir : gmap string dir_entry)
    (epoch : Z) (content : list line) :
  s ≠ s' → with_file s output_dir epoch content !! subdir s' = output_dir !! subdir s'.
Proof.
  intros Hs. unfold with_file. apply lookup_insert_ne. intros H. by apply (inj _) in H.
Qed.

Lemma with_file_is_dir (s s' : split) (output_dir : gmap string dir_entry)
    (epoch : Z) (content : list line) :
  output_dir !! subdir s' ≠ Some NotADir →
  with_file s output_dir epoch content !! subdir s' ≠ Some NotADir.
Proof.
  intros Hdir. destruct (decide (s = s')) as [<-|Hs].
  - unfold with_file. by rewrite lookup_insert_eq.
  - by rewrite with_file_lookup_ne.
Qed.

(** A write leaves alone what is needed to write another file. *)
Lemma new_content_with_file {pd : Pandas} (s1 s2 : split) (output_dir : gmap string dir_entry)
    (e1 e2 : Z) (content : list line) (td_df : DataFrame) :
  s1 ≠ s2 ∨ e1 ≠ e2 →
  new_content (logging_dir_of s2 (with_file s1 output_dir e1 content)) e2 td_df =
  new_content (logging_dir_of s2 output_dir) e2 td_df.
Proof.
  intros Hne. destruct (decide (s1 = s2)) as [<-|Hs].
  - destruct Hne as [?|He]; [done|].
    rewrite logging_dir_of_with_file. unfold new_content.
    rewrite lookup_insert_ne; [done|]. intros Heq. by apply (inj _) in Heq.
  - unfold logging_dir_of. by rewrite with_file_lookup_ne.
Qed.

Lemma with_file_unfold (s : split) (output_dir : gmap string dir_entry) (epoch : Z)
    (content : list line) :
  with_file s output_dir epoch content =
  <[subdir s := Folder (<[epoch_file_name epoch := RegFile content]>
                          (logging_dir_of s output_dir))]> output_dir.
Proof. done. Qed.

Lemma logging_dir_of_with_file_ne (s s' : split) (output_dir : gmap string dir_entry)
    (epoch : Z) (content : list line) :
  s ≠ s' →
  logging_dir_of s' (with_file s output_dir epoch content) = logging_dir_of s' output_dir.
Proof. intros Hs. unfold logging_dir_of. by rewrite with_file_lookup_ne. Qed.

Lemma with_file_commute (s1 s2 : split) (output_dir : gmap string dir_entry)
    (e1 e2 : Z) (c1 c2 : list line) :
  s1 ≠ s2 ∨ e1 ≠ e2 →
  with_file s2 (with_file s1 output_dir e1 c1) e2 c2 =
  with_file s1 (with_file s2 output_dir e2 c2) e1 c1.
Proof.
  intros Hne. destruct (decide (s1 = s2)) as [<-|Hs].
  - destruct Hne as [?|He]; [done|].
    assert (Hn : epoch_file_name e1 ≠ epoch_file_name e2)
      by (intros Heq; by apply (inj _) in Heq).
    rewrite (with_file_unfold s1 (with_file s1 output_dir e1 c1)).
    rewrite (with_file_unfold s1 (with_file s1 output_dir e2 c2)).
    rewrite !logging_dir_of_with_file, !with_file_unfold, !insert_insert_eq.
    f_equal. f_equal. by apply insert_insert_ne.
  - assert (Hd : subdir s1 ≠ subdir s2) by (intros Heq; by apply (inj _) in Heq).
    rewrite (with_file_unfold s2 (with_file s1 output_dir e1 c1)).
    rewrite (with_file_unfold s1 (with_file s2 output_dir e2 c2)).
    rewrite !logging_dir_of_with_file_ne, !with_file_unfold by done.
    by apply insert_insert_ne.
Qed.

(** X1: the writer, where pandas has no say.  Sequences of different
    lengths are refused with a [ValueError] whatever the directory holds:
    the frame is built before the directory is looked at.  For sequences
    of equal lengths, a subdirectory name that is taken by something that
    is no directory ends the call in an [OSError]; and where no entry
    stands under the epoch file's name, the writer returns: the
    subdirectory (created if missing) then holds the new file, with what
    [to_json] writes for the new records, and everything else is as it
    was. *)
Theorem writer_without_existing_file {pd : Pandas} (s : split)
    (output_dir : gmap string dir_entry) (epoch : Z)
    (ids : list ident) (vs : list (list Q)) (gs : list Z) :
  (¬ (length ids = length vs ∧ length vs = length gs) →
   log_dynamics s output_dir epoch ids vs gs = Raise ValueError) ∧
  (length ids = length vs → length vs = length gs →
   (output_dir !! subdir s = Some NotADir →
    log_dynamics s output_dir epoch ids vs gs = Raise OSError) ∧
   (output_dir !! subdir s ≠ Some NotADir →
    logging_dir_of s output_dir !! epoch_file_name epoch = None →
    ∃ d logging_dir,
      log_dynamics s output_dir epoch ids vs gs = Ok d ∧
      d !! subdir s = Some (Folder logging_dir) ∧
      logging_dir !! epoch_file_name epoch =
        Some (RegFile (to_json (zip_rows epoch ids vs gs))) ∧
      (∀ name, name ≠ epoch_file_name epoch →
         logging_dir !! name = logging_dir_of s output_dir !! name) ∧
      (∀ name, name ≠ subdir s → d !! name = output_dir !! name))).
Proof.
  rewrite log_dynamics_with_file. split.
  - intros Hlen. by rewrite decide_False.
  - intros H1 H2. rewrite decide_True by done. split.
    + intros Hdir. by rewrite Hdir.
    + intros Hdir Hfile.
      assert (Hgo : match output_dir !! subdir s with
                    | Some NotADir => Raise OSError
                    | _ => content ← new_content (logging_dir_of s output_dir) epoch
                                       (zip_rows epoch ids vs gs);
                           Ok (with_file s output_dir epoch content)
                    end =
                    Ok (with_file s output_dir epoch (to_json (zip_rows epoch ids vs gs)))).
      { unfold new_content. rewrite Hfile.
        by destruct (output_dir !! subdir s) as [[f|]|]. }
      rewrite Hgo. eexists _, _.
      split; [done|]. unfold with_file. split; [apply lookup_insert_eq|].
      split; [apply lookup_insert_eq|].
      split; intros name Hname; by apply lookup_insert_ne.
Qed.

Lemma writer_without_existing_file_witness :
  log_training_dynamics (in_subdir Training two_epochs) 2 [IdInt 1; IdInt 2]
    [[3#10; 7#10]%Q] [1; 0] = Raise ValueError ∧
  ∃ d logging_dir,
    log_eval_dynamics (in_subdir Training two_epochs) 0 [IdInt 1] [[3#10; 7#10]%Q] [1]
      = Ok d ∧
    d !! subdir Evaluation = Some (Folder logging_dir) ∧
    logging_dir !! epoch_file_name 0 =
      Some (RegFile (to_json (zip_rows 0 [IdInt 1] [[3#10; 7#10]%Q] [1]))).
Proof.
  split.
  - apply (proj1 (writer_without_existing_file Training (in_subdir Training two_epochs) 2
                    [IdInt 1; IdInt 2] [[3#10; 7#10]%Q] [1; 0])).
    intros [Hlen _]. discriminate Hlen.
  - destruct (proj2 (writer_without_existing_file Evaluation
                       (in_subdir Training two_epochs) 0 [IdInt 1] [[3#10; 7#10]%Q] [1])
                eq_refl eq_refl) as [_ Hfresh].
    destruct Hfresh as (d & logging_dir & Hlog & Hd & Hfile & _).
    + vm_compute. discriminate.
    + vm_compute. reflexivity.
    + exists d, logging_dir. split; [exact Hlog|]. split; [exact Hd | exact Hfile].
Defined.

(** ** Writes compose *)

(** X3: writes for different epochs, or by the two different writers,
    can be done in either order: if one order goes through, so does the
    other, and the directory afterwards is the same.  This holds whatever
    pandas makes of files that exist. *)
Theorem log_commute {pd : Pandas} (s1 s2 : split) (output_dir d : gmap string dir_entry)
    (e1 e2 : Z) (ids1 ids2 : list ident) (vs1 vs2 : list (list Q)) (gs1 gs2 : list Z) :
  s1 ≠ s2 ∨ e1 ≠ e2 →
  (d1 ← log_dynamics s1 output_dir e1 ids1 vs1 gs1;
   log_dynamics s2 d1 e2 ids2 vs2 gs2) = Ok d →
  (d2 ← log_dynamics s2 output_dir e2 ids2 vs2 gs2;
   log_dynamics s1 d2 e1 ids1 vs1 gs1) = Ok d.
Proof.
  intros Hne H0. apply bind_Ok in H0 as (d1 & H1 & H2).
  apply log_dynamics_Ok in H1 as (Hlen1 & Hdir1 & c1 & Hc1 & ->).
  apply log_dynamics_Ok in H2 as (Hlen2 & Hdir2 & c2 & Hc2 & ->).
  rewrite new_content_with_file in Hc2 by done.
  assert (Hdir2' : output_dir !! subdir s2 ≠ Some NotADir).
  { destruct (decide (s1 = s2)) as [<-|Hs]; [done|]. by rewrite with_file_lookup_ne in Hdir2. }
  assert (Hfirst : log_dynamics s2 output_dir e2 ids2 vs2 gs2 =
                   Ok (with_file s2 output_dir e2 c2)).
  { apply log_dynamics_Ok. eauto. }
  rewrite Hfirst. simpl. apply log_dynamics_Ok.
  split; [done|]. split; [by apply with_file_is_dir|].
  exists c1. split.
  - rewrite new_content_with_file; [done|]. destruct Hne; [left|right]; done.
  - by apply with_file_commute.
Qed.

Lemma log_commute_witness :
  ∃ d, (d1 ← log_training_dynamics ∅ 0 [IdInt 1] [[1#10; 9#10]%Q] [1];
        log_eval_dynamics d1 0 [IdInt 2] [[8#10; 2#10]%Q] [0]) = Ok d ∧
       (d2 ← log_eval_dynamics ∅ 0 [IdInt 2] [[8#10; 2#10]%Q] [0];
        log_training_dynamics d2 0 [IdInt 1] [[1#10; 9#10]%Q] [1]) = Ok d.
Proof.
  eexists. split; [reflexivity|].
  apply (log_commute Training Evaluation ∅ _ 0 0 [IdInt 1] [IdInt 2]
           [[1#10; 9#10]%Q] [[8#10; 2#10]%Q] [1] [0]).
  - left. discriminate.
  - reflexivity.
Defined.

(** X4: a write of one kind leaves the subdirectory of the other kind as
    it was, so the reader of the other kind returns what it returned
    before. *)
Theorem log_other_kind_unseen {pd : Pandas} (s s' : split)
    (output_dir d : gmap string dir_entry)
    (epoch : Z) (ids : list ident) (vs : list (list Q)) (gs : list Z)
    (sl : bool) (idf : string) (burn_out : option Z) :
  s ≠ s' →
  log_dynamics s output_dir epoch ids vs gs = Ok d →
  d !! subdir s' = output_dir !! subdir s' ∧
  read_dynamics s' d sl idf burn_out = read_dynamics s' output_dir sl idf burn_out.
Proof.
  intros Hs H0. apply log_dynamics_Ok in H0 as (_ & _ & c & _ & ->).
  assert (Hsame := with_file_lookup_ne s s' output_dir epoch c Hs).
  split; [done|]. unfold read_dynamics, listdir. by rewrite Hsame.
Qed.

Lemma log_other_kind_unseen_witness :
  ∃ d, log_eval_dynamics (in_subdir Training two_epochs) 0 [IdInt 9] [[1#2]%Q] [1] = Ok d ∧
       read_training_dynamics d false "guid" None =
       read_training_dynamics (in_subdir Training two_epochs) false "guid" None.
Proof.
  eexists. split; [reflexivity|].
  eapply (proj2 (log_other_kind_unseen Evaluation Training _ _ 0 [IdInt 9] [[1#2]%Q] [1]
                   false "guid" None _ _)).
  Unshelve.
  - discriminate.
  - reflexivity.
Defined.

(** ** Reading what the writers wrote, epoch after epoch *)

Lemma logits_field_not_guid (j : Z) : logits_field j ≠ "guid".
Proof. unfold logits_field. intros H. apply (f_equal (String.get 0)) in H. discriminate. Qed.

Lemma dict_get_app (d1 d2 : dynamics) (k : key) :
  dict_get (d1 ++ d2) k =
  match dict_get d1 k with
  | Some e => Some e
  | None => dict_get d2 k
  end.
Proof.
  induction d1 as [|[g e] d1 IH]; simpl; [done|].
  by destruct (decide (hash_key g = Some k)).
Qed.

Lemma getitem_make_row_guid (j : Z) (i : ident) (v : list Q) (g : Z) :
  getitem (JObj (make_row j i v g)) "guid" = Ok (json_of_ident i).
Proof. unfold getitem, make_row, obj_get. by rewrite decide_True. Qed.

Lemma getitem_make_row_logits (j : Z) (i : ident) (v : list Q) (g : Z) :
  getitem (JObj (make_row j i v g)) (logits_field j) = Ok (json_of_scores v).
Proof.
  unfold getitem, make_row, obj_get.
  rewrite decide_False by (intros H; by apply (logits_field_not_guid j)).
  by rewrite decide_True.
Qed.

Lemma process_record_known (sl : bool) (idf : string) (n : Z) (td : dynamics)
    (r guid : json) (k : key) (x : json) :
  record_key sl idf r = Ok (guid, k) → is_Some (dict_get td k) →
  getitem r (logits_field n) = Ok x →
  process_record sl idf n td (Some r) = Ok (dict_append td k x).
Proof.
  intros Hk [e He] Hx. unfold process_record. simpl. rewrite Hk. simpl.
  rewrite He. simpl. by rewrite Hx.
Qed.

(** A written row of epoch [j] whose key is known: its score-vector is
    appended, whatever [j] is. *)
Lemma process_next_row (j : Z) (td : dynamics) (i : ident) (v : list Q) (g : Z)
    (k : key) :
  hash_key (json_of_ident i) = Some k → is_Some (dict_get td k) →
  process_record false "guid" j td (Some (JObj (make_row j i v g))) =
  Ok (dict_append td k (json_of_scores v)).
Proof.
  intros Hk He. apply (process_record_known _ _ _ _ _ (json_of_ident i)); [|done|].
  - unfold record_key. rewrite getitem_make_row_guid. simpl. by rewrite Hk.
  - apply getitem_make_row_logits.
Qed.

Lemma read_next_file (j : Z) (ids : list ident) (vs : list (list Q)) (gs : list Z)
    (done todo : dynamics) :
  todo.*1 = json_of_ident <$> ids →
  length vs = length ids → length gs = length ids →
  NoDup ids →
  (∀ i k, i ∈ ids → hash_key (json_of_ident i) = Some k → dict_get done k = None) →
  foldM (process_record false "guid" j) (done ++ todo)
        (record_lines (zip_rows j ids vs gs)) =
  Ok (done ++ extend todo vs).
Proof.
  revert vs gs done todo. induction ids as [|i ids IH];
    intros vs gs done todo Hkeys Hvs Hgs Hnd Hdone.
  - destruct todo; [|discriminate]. destruct vs; [|discriminate]. done.
  - destruct todo as [|[g0 e0] todo]; [discriminate|].
    destruct vs as [|v vs]; [discriminate|]. destruct gs as [|g gs]; [discriminate|].
    injection Hkeys as -> Hkeys. apply list.NoDup_cons in Hnd as [Hi Hnd].
    destruct (hash_key_ident_Some i) as [k Hk].
    assert (Hnone : dict_get done k = None)
      by (apply (Hdone i k); [apply elem_of_cons; by left | done]).
    change (record_lines (zip_rows j (i :: ids) (v :: vs) (g :: gs)))
      with (Some (JObj (make_row j i v g)) :: record_lines (zip_rows j ids vs gs)).
    simpl foldM. rewrite (process_next_row j _ i v g k Hk).
    2:{ rewrite dict_get_app, Hnone. simpl. rewrite decide_True by done. eauto. }
    simpl. rewrite dict_append_app by done. simpl dict_append.
    rewrite decide_True by done. simpl.
    rewrite (cons_middle _ done todo), app_assoc.
    rewrite IH; [|done|simpl in *; lia|simpl in *; lia|done|].
    + by rewrite <- app_assoc.
    + intros i' k' Hi' Hk'. rewrite dict_get_snoc, (Hdone i' k') by
        ((apply elem_of_cons; by right) || done).
      rewrite decide_False; [done|]. intros Heq. apply Hi.
      rewrite <- Hk' in Heq. by rewrite (hash_key_ident_inj _ _ Heq).
Qed.

Lemma extend_keys (td : dynamics) (vs : list (list Q)) :
  length vs = length td → (extend td vs).*1 = td.*1.
Proof.
  revert vs. induction td as [|[g e] td IH]; intros [|v vs] H; try discriminate; [done|].
  simpl. f_equal. apply IH. simpl in H. lia.
Qed.

Lemma merged_keys (ids : list ident) (vs : list (list Q)) (gs : list Z) :
  length vs = length ids → length gs = length ids →
  (merged ids vs gs).*1 = json_of_ident <$> ids.
Proof.
  revert vs gs. induction ids as [|i ids IH]; intros [|v vs] [|g gs] H1 H2;
    try discriminate; [done|].
  simpl. f_equal. apply IH; simpl in *; lia.
Qed.

Lemma range_succ (n : Z) : 0 ≤ n → range (n + 1) = range n ++ [n].
Proof.
  intros Hn. unfold range.
  replace (Z.to_nat (n + 1)) with (S (Z.to_nat n)) by lia.
  rewrite seq_S, fmap_app. simpl. by rewrite Z2Nat.id.
Qed.

Lemma read_epochs_same_files (td_dir td_dir' : gmap string node) (sl : bool)
    (idf : string) (td : dynamics) (es : list Z) :
  (∀ j, j ∈ es → td_dir' !! epoch_file_name j = td_dir !! epoch_file_name j) →
  foldM (process_epoch td_dir' sl idf) td es = foldM (process_epoch td_dir sl idf) td es.
Proof.
  intros Hsame. apply foldM_ext. intros td0 j Hj. unfold process_epoch.
  by rewrite Hsame.
Qed.

(** One more epoch, written for the instances that a directory already
    holds, in their order. *)
Lemma append_epoch_read {pd : Pandas} (s : split) (output_dir : gmap string dir_entry)
    (td_dir : gmap string node) (num : Z) (ids : list ident) (vs : list (list Q))
    (gs : list Z) (td : dynamics) :
  listdir output_dir s = Ok td_dir →
  count_files td_dir = num →
  td_dir !! epoch_file_name num = None →
  read_dynamics s output_dir false "guid" None = Ok td →
  td.*1 = json_of_ident <$> ids → NoDup ids → ids ≠ [] →
  length vs = length ids → length gs = length ids → exact_scores vs →
  let td_dir' :=
    <[epoch_file_name num := RegFile (to_json (zip_rows num ids vs gs))]> td_dir in
  log_dynamics s output_dir num ids vs gs = Ok (<[subdir s := Folder td_dir']> output_dir) ∧
  count_files td_dir' = num + 1 ∧
  read_dynamics s (<[subdir s := Folder td_dir']> output_dir) false "guid" None =
    Ok (extend td vs).
Proof.
  intros Hdir Hcount Hnone Hread Hkeys Hnd Hne Hvs Hgs Hex td_dir'.
  apply listdir_Ok in Hdir as Hlook.
  assert (Hnum : 0 ≤ num) by (unfold count_files in Hcount; lia).
  assert (Hcount' : count_files td_dir' = num + 1)
    by (unfold td_dir'; rewrite count_files_insert_file by done; lia).
  split; [|split; [done|]].
  - unfold log_dynamics. rewrite new_frame_Ok, Hlook by congruence. simpl.
    by rewrite Hnone.
  - rewrite (read_dynamics_listed _ _ td_dir'); [|apply listdir_Ok, lookup_insert_eq].
    rewrite (read_dynamics_listed _ _ _ _ _ _ Hdir) in Hread.
    unfold num_epochs in *. rewrite Hcount', range_succ, foldM_app by done.
    rewrite Hcount in Hread.
    rewrite (read_epochs_same_files td_dir td_dir').
    2:{ intros j Hj%elem_of_range. apply lookup_insert_ne.
        intros H. apply (inj _) in H. lia. }
    rewrite Hread. simpl.
    rewrite (process_epoch_file _ _ td_dir' _ _ _ (lookup_insert_eq _ _ _)).
    rewrite to_json_exact by (done || congruence).
    pose proof (read_next_file num ids vs gs [] td Hkeys Hvs Hgs Hnd) as Hfile.
    rewrite !app_nil_l in Hfile. by rewrite Hfile.
Qed.

(** X5: appending an epoch.  Take a directory whose [num] regular files
    the reader merges into a non-empty [td], and in which no file of
    epoch [num] exists yet.  Writing epoch [num] for the instances of
    [td], in their order, with scores that [to_json] writes without
    rounding, and reading again gives [td] with one more score-vector at
    the end of every history; keys, order and gold labels stay. *)
Theorem read_after_next_epoch {pd : Pandas} (s : split) (output_dir : gmap string dir_entry)
    (td_dir : gmap string node) (ids : list ident) (vs : list (list Q))
    (gs : list Z) (td : dynamics) :
  listdir output_dir s = Ok td_dir →
  td_dir !! epoch_file_name (count_files td_dir) = None →
  read_dynamics s output_dir false "guid" None = Ok td →
  td.*1 = json_of_ident <$> ids → NoDup ids → ids ≠ [] →
  length vs = length ids → length gs = length ids → exact_scores vs →
  ∃ d, log_dynamics s output_dir (count_files td_dir) ids vs gs = Ok d ∧
       read_dynamics s d false "guid" None = Ok (extend td vs) ∧
       (extend td vs).*1 = td.*1 ∧
       ∀ i g e, td !! i = Some (g, e) →
         ∃ v, vs !! i = Some v ∧
              extend td vs !! i = Some (g, Entry (gold e) (logits e ++ [json_of_scores v])).
Proof.
  intros Hdir Hnone Hread Hkeys Hnd Hne Hvs Hgs Hex.
  destruct (append_epoch_read s output_dir td_dir _ ids vs gs td Hdir eq_refl Hnone
              Hread Hkeys Hnd Hne Hvs Hgs Hex) as (Hlog & _ & Hread').
  assert (Hlen : length vs = length td).
  { rewrite Hvs, <- (length_fmap json_of_ident), <- Hkeys. by rewrite length_fmap. }
  eexists. split; [done|]. split; [done|]. split; [by apply extend_keys|].
  intros i g e Hi.
  destruct (lookup_lt_is_Some_2 vs i) as [v Hv].
  { rewrite Hlen. by eapply lookup_lt_Some. }
  exists v. split; [done|]. unfold extend.
  apply lookup_zip_with_Some. by exists (g, e), v.
Qed.

Lemma read_after_next_epoch_witness :
  ∃ d, log_training_dynamics (in_subdir Training two_epochs) 2 [IdInt 1; IdInt 2]
         [[3#10; 7#10]; [6#10; 4#10]]%Q [1; 0] = Ok d ∧
       read_training_dynamics d false "guid" None =
       Ok [(JInt 1, Entry (JInt 1) [json_of_scores [1#10; 9#10]; json_of_scores [2#10; 8#10];
                                    json_of_scores [3#10; 7#10]]%Q);
           (JInt 2, Entry (JInt 0) [json_of_scores [8#10; 2#10]; json_of_scores [7#10; 3#10];
                                    json_of_scores [6#10; 4#10]]%Q)].
Proof.
  destruct (read_after_next_epoch Training (in_subdir Training two_epochs) two_epochs
              [IdInt 1; IdInt 2] [[3#10; 7#10]; [6#10; 4#10]]%Q [1; 0]
              [(JInt 1, Entry (JInt 1) [json_of_scores [1#10; 9#10];
                                        json_of_scores [2#10; 8#10]]%Q);
               (JInt 2, Entry (JInt 0) [json_of_scores [8#10; 2#10];
                                        json_of_scores [7#10; 3#10]]%Q)])
    as (d & Hlog & Hread & _).
  - reflexivity.
  - vm_compute. reflexivity.
  - vm_compute. reflexivity.
  - reflexivity.
  - apply NoDup_cons_2; [|apply NoDup_singleton].
    intros H%list_elem_of_singleton. discriminate H.
  - discriminate.
  - reflexivity.
  - reflexivity.
  - repeat (apply list.Forall_cons; split; [|try apply Forall_nil_2]);
      try (vm_compute; reflexivity).
  - exists d. split; [exact Hlog | exact Hread].
Defined.

Lemma log_epochs_snoc {pd : Pandas} (s : split) (d : gmap string dir_entry) (epoch : Z)
    (ids : list ident) (data : list (list (list Q) * list Z)) (vs : list (list Q))
    (gs : list Z) :
  log_epochs s d epoch ids (data ++ [(vs, gs)]) =
  d' ← log_epochs s d epoch ids data;
  log_dynamics s d' (epoch + Z.of_nat (length data)) ids vs gs.
Proof.
  revert d epoch. induction data as [|[vs0 gs0] data IH]; intros d epoch; simpl.
  - rewrite Z.add_0_r. by destruct (log_dynamics s d epoch ids vs gs).
  - destruct (log_dynamics s d epoch ids vs0 gs0) as [d'|]; simpl; [|done].
    rewrite IH. by replace (epoch + 1 + Z.of_nat (length data))
      with (epoch + Z.pos (Pos.of_succ_nat (length data))) by lia.
Qed.

Lemma histories_snoc (ids : list ident) (first : list (list Q) * list Z)
    (rest : list (list (list Q) * list Z)) (vs : list (list Q)) (gs : list Z) :
  histories ids (first :: rest ++ [(vs, gs)]) = extend (histories ids (first :: rest)) vs.
Proof. destruct first as [vs0 gs0]. simpl. by rewrite fmap_app, foldl_app. Qed.

(** A run from an output directory without the subdirectory: what is on
    disk afterwards, and what the reader makes of it. *)
Lemma log_epochs_read {pd : Pandas} (s : split) (output_dir : gmap string dir_entry)
    (ids : list ident) (first : list (list Q) * list Z)
    (rest : list (list (list Q) * list Z)) :
  output_dir !! subdir s = None → NoDup ids → ids ≠ [] →
  Forall (λ p, exact_scores p.1) (first :: rest) →
  Forall (λ p, length p.1 = length ids ∧ length p.2 = length ids) (first :: rest) →
  ∃ d td_dir,
    log_epochs s output_dir 0 ids (first :: rest) = Ok d ∧
    listdir d s = Ok td_dir ∧
    count_files td_dir = Z.of_nat (length (first :: rest)) ∧
    (∀ j, Z.of_nat (length (first :: rest)) ≤ j → td_dir !! epoch_file_name j = None) ∧
    read_dynamics s d false "guid" None = Ok (histories ids (first :: rest)) ∧
    (histories ids (first :: rest)).*1 = json_of_ident <$> ids.
Proof.
  intros Hnone Hnd Hne. induction rest as [|[vs gs] rest IH] using rev_ind; intros Hexs Hall.
  - destruct first as [vs0 gs0]. apply Forall_inv in Hall as [Hvs Hgs]. simpl in Hvs, Hgs.
    apply Forall_inv in Hexs as Hex. simpl in Hex.
    do 2 eexists. split; [|split; [|split; [|split; [|split]]]].
    + simpl. unfold log_dynamics. rewrite new_frame_Ok, Hnone by congruence. simpl.
      rewrite lookup_empty. reflexivity.
    + apply listdir_Ok, lookup_insert_eq.
    + apply count_files_singleton.
    + intros j Hj. rewrite lookup_insert_ne, lookup_empty; [done|].
      intros H. apply (inj _) in H. simpl in Hj. lia.
    + erewrite read_dynamics_listed; [|apply listdir_Ok, lookup_insert_eq].
      unfold num_epochs. rewrite count_files_singleton.
      change (range 1) with [0]. simpl foldM.
      erewrite process_epoch_file by apply lookup_insert_eq.
      rewrite to_json_exact by (done || congruence).
      rewrite read_written_file; [done|done|done].
    + by apply merged_keys.
  - rewrite app_comm_cons in Hall. apply Forall_app in Hall as [Hall Hlast].
    apply Forall_inv in Hlast as [Hvs Hgs]. simpl in Hvs, Hgs.
    rewrite app_comm_cons in Hexs. apply Forall_app in Hexs as [Hexs Hex].
    apply Forall_inv in Hex. simpl in Hex.
    destruct (IH Hexs Hall)
      as (d & td_dir & Hlog & Hdir & Hcount & Habsent & Hread & Hkeys).
    destruct (append_epoch_read s d td_dir _ ids vs gs _ Hdir Hcount
                (Habsent _ (Z.le_refl _)) Hread Hkeys Hnd Hne Hvs Hgs Hex)
      as (Hlog' & Hcount' & Hread').
    do 2 eexists. split; [|split; [|split; [|split; [|split]]]].
    + rewrite app_comm_cons, log_epochs_snoc, Hlog. simpl mbind.
      rewrite Z.add_0_l. exact Hlog'.
    + apply listdir_Ok, lookup_insert_eq.
    + rewrite Hcount'. rewrite app_comm_cons, length_app. simpl. lia.
    + intros j Hj. rewrite app_comm_cons, length_app in Hj. simpl in Hj.
      rewrite lookup_insert_ne by (intros H; apply (inj _) in H; simpl in H; lia).
      apply Habsent. simpl. lia.
    + rewrite histories_snoc. exact Hread'.
    + rewrite histories_snoc, extend_keys; [done|].
      rewrite Hvs, <- (length_fmap json_of_ident ids), <- Hkeys. by rewrite length_fmap.
Qed.

Lemma merged_lookup (ids : list ident) (vs : list (list Q)) (gs : list Z) (i : nat)
    (id : ident) (v : list Q) (g : Z) :
  ids !! i = Some id → vs !! i = Some v → gs !! i = Some g →
  merged ids vs gs !! i = Some (json_of_ident id, Entry (JInt g) [json_of_scores v]).
Proof.
  revert vs gs i. induction ids as [|i0 ids IH]; intros [|v0 vs] [|g0 gs] [|i] H1 H2 H3;
    try discriminate.
  - by injection H1 as ->; injection H2 as ->; injection H3 as ->.
  - simpl in *. by apply IH.
Qed.

Lemma foldl_extend_lookup (td : dynamics) (vss : list (list (list Q))) (i : nat)
    (g : json) (e : entry) :
  td !! i = Some (g, e) →
  Forall (λ vs, i < length vs)%nat vss →
  ∃ e', foldl extend td vss !! i = Some (g, e') ∧ gold e' = gold e ∧
        Some <$> logits e' =
        (Some <$> logits e) ++ ((λ vs, json_of_scores <$> vs !! i) <$> vss).
Proof.
  revert td e. induction vss as [|vs vss IH]; intros td e Hi Hall.
  - exists e. simpl. by rewrite app_nil_r.
  - apply list.Forall_cons in Hall as [Hvs Hall].
    destruct (lookup_lt_is_Some_2 vs i Hvs) as [v Hv].
    assert (Hext : extend td vs !! i =
              Some (g, Entry (gold e) (logits e ++ [json_of_scores v])))
      by (apply lookup_zip_with_Some; by exists (g, e), v).
    destruct (IH _ _ Hext Hall) as (e' & He' & Hgold & Hlogits).
    exists e'. split; [done|]. split; [done|]. rewrite Hlogits. simpl.
    by rewrite fmap_app, <- app_assoc, Hv.
Qed.

(** X6: a whole run read back.  Starting from an output directory
    without the subdirectory, log any number (at least one) of epochs
    [0, 1, ..] for the same pairwise distinct instances (at least one),
    each with as many score-vectors and gold labels as there are
    instances, the scores being such that [to_json] writes them without
    rounding.  Every write goes through, and the reader (no cutoff, no
    stripping) returns one entry per instance, in the order of [ids]: its
    gold label is the one logged at epoch 0 and its history is its
    score-vector of epoch 0, of epoch 1, and so on. *)
Theorem read_after_log_epochs {pd : Pandas} (s : split) (output_dir : gmap string dir_entry)
    (ids : list ident) (data : list (list (list Q) * list Z)) :
  output_dir !! subdir s = None → NoDup ids → ids ≠ [] → data ≠ [] →
  Forall (λ p, exact_scores p.1) data →
  Forall (λ p, length p.1 = length ids ∧ length p.2 = length ids) data →
  ∃ d, log_epochs s output_dir 0 ids data = Ok d ∧
       read_dynamics s d false "guid" None = Ok (histories ids data) ∧
       (histories ids data).*1 = json_of_ident <$> ids ∧
       ∀ i id, ids !! i = Some id →
         ∃ e, histories ids data !! i = Some (json_of_ident id, e) ∧
              Some (gold e) = JInt <$> (head data ≫= λ p, p.2 !! i) ∧
              Some <$> logits e = (λ p, json_of_scores <$> p.1 !! i) <$> data.
Proof.
  intros Hnone Hnd Hne Hdata Hexs Hall. destruct data as [|[vs0 gs0] rest]; [done|].
  destruct (log_epochs_read s output_dir ids (vs0, gs0) rest Hnone Hnd Hne Hexs Hall)
    as (d & td_dir & Hlog & _ & _ & _ & Hread & Hkeys).
  exists d. split; [done|]. split; [done|]. split; [done|].
  intros i id Hi. apply list.Forall_cons in Hall as [[Hvs Hgs] Hrest]. simpl in Hvs, Hgs.
  assert (Hlt : (i < length ids)%nat) by (by eapply lookup_lt_Some).
  destruct (lookup_lt_is_Some_2 vs0 i) as [v Hv]; [lia|].
  destruct (lookup_lt_is_Some_2 gs0 i) as [g Hg]; [lia|].
  destruct (foldl_extend_lookup (merged ids vs0 gs0) rest.*1 i _ _
              (merged_lookup _ _ _ _ _ _ _ Hi Hv Hg)) as (e & He & Hgold & Hlogits).
  { apply Forall_fmap. eapply list.Forall_impl; [exact Hrest|]. intros [vs gs] [H _].
    simpl in *. lia. }
  exists e. split; [exact He|]. simpl. rewrite Hg. simpl. split; [by rewrite Hgold|].
  rewrite Hlogits. simpl. rewrite Hv. simpl. f_equal. by rewrite <- list_fmap_compose.
Qed.

Lemma read_after_log_epochs_witness :
  ∃ d, log_epochs Training ∅ 0 [IdInt 1; IdInt 2]
         [([[1#10; 9#10]; [8#10; 2#10]]%Q, [1; 0]);
          ([[2#10; 8#10]; [7#10; 3#10]]%Q, [1; 0])] = Ok d ∧
       read_training_dynamics d false "guid" None =
       Ok [(JInt 1, Entry (JInt 1) [json_of_scores [1#10; 9#10]; json_of_scores [2#10; 8#10]]%Q);
           (JInt 2, Entry (JInt 0) [json_of_scores [8#10; 2#10]; json_of_scores [7#10; 3#10]]%Q)].
Proof.
  destruct (read_after_log_epochs Training ∅ [IdInt 1; IdInt 2]
              [([[1#10; 9#10]; [8#10; 2#10]]%Q, [1; 0]);
               ([[2#10; 8#10]; [7#10; 3#10]]%Q, [1; 0])])
    as (d & Hlog & Hread & _).
  - reflexivity.
  - apply NoDup_cons_2; [|apply NoDup_singleton].
    intros H%list_elem_of_singleton. discriminate H.
  - discriminate.
  - discriminate.
  - repeat (apply list.Forall_cons; split; [|try apply Forall_nil_2]);
      try (vm_compute; reflexivity).
  - repeat (apply list.Forall_cons; split; [split; reflexivity|]). apply Forall_nil_2.
  - exists d. split; [exact Hlog | exact Hread].
Defined.

(** ** When the readers return, and what *)

Lemma read_epochs_returns_iff (sl : bool) (idf : string) (td_dir : gmap string node)
    (num : Z) :
  consistent sl idf td_dir num = true ↔
  ∃ td, foldM (process_epoch td_dir sl idf) [] (range num) = Ok td.
Proof.
  split; [apply read_epochs_accepts|]. intros [td H]. by eapply read_epochs_consistent.
Qed.

Lemma consistent_spec (sl : bool) (idf : string) (td_dir : gmap string node) (num : Z) :
  consistent sl idf td_dir num = true ↔
  ∀ n, 0 ≤ n < num →
    ∃ c, td_dir !! epoch_file_name n = Some (RegFile c) ∧
      ∀ l, l ∈ c →
        ∃ k x, line_key sl idf l = Some k ∧ line_logits n l = Some x ∧
               is_Some (first_gold sl idf k (epoch_content td_dir 0)).
Proof.
  unfold consistent. rewrite forallb_forall. split.
  - intros H n Hn. specialize (H n (proj1 (list_elem_of_In _ _) (proj2 (elem_of_range _ _) Hn))).
    unfold epoch_ok in H. destruct (td_dir !! epoch_file_name n) as [[c|]|]; try discriminate.
    exists c. split; [done|]. intros l Hl. rewrite forallb_forall in H.
    specialize (H l (proj1 (list_elem_of_In _ _) Hl)). unfold line_ok in H.
    destruct (line_key sl idf l) as [k|]; [|discriminate].
    destruct (line_logits n l) as [x|]; [|discriminate].
    apply bool_decide_eq_true in H. eauto.
  - intros H n Hn%list_elem_of_In%elem_of_range.
    destruct (H n Hn) as (c & Hc & Hlines). unfold epoch_ok. rewrite Hc.
    apply forallb_forall. intros l Hl%list_elem_of_In.
    destruct (Hlines l Hl) as (k & x & Hk & Hx & Hg). unfold line_ok.
    rewrite Hk, Hx. by apply bool_decide_eq_true.
Qed.

(** X7: when a reader returns.  Given the subdirectory, a reader returns
    a mapping exactly when, for every epoch [n] it goes through, the epoch
    file is there as a regular file and each of its lines is a record with
    an identifier that can serve as a key and with the field
    [logits_epoch_<n>], such that the first line of epoch 0 with the same
    key has a gold field. *)
Theorem reader_returns_iff (s : split) (model_dir : gmap string dir_entry)
    (td_dir : gmap string node) (sl : bool) (idf : string) (burn_out : option Z) :
  listdir model_dir s = Ok td_dir →
  (∃ td, read_dynamics s model_dir sl idf burn_out = Ok td) ↔
  ∀ n, 0 ≤ n < num_epochs td_dir burn_out →
    ∃ c, td_dir !! epoch_file_name n = Some (RegFile c) ∧
      ∀ l, l ∈ c →
        ∃ r guid k x, l = Some r ∧ record_key sl idf r = Ok (guid, k) ∧
          getitem r (logits_field n) = Ok x ∧
          ∃ l0 g, head (bearing sl idf k (epoch_content td_dir 0)) = Some l0 ∧
                  line_gold l0 = Some g.
Proof.
  intros Hdir. rewrite (read_dynamics_listed _ _ _ _ _ _ Hdir).
  assert (Hline : ∀ n l,
    (∃ k x, line_key sl idf l = Some k ∧ line_logits n l = Some x ∧
            is_Some (first_gold sl idf k (epoch_content td_dir 0))) ↔
    (∃ r guid k x, l = Some r ∧ record_key sl idf r = Ok (guid, k) ∧
       getitem r (logits_field n) = Ok x ∧
       ∃ l0 g, head (bearing sl idf k (epoch_content td_dir 0)) = Some l0 ∧
               line_gold l0 = Some g)).
  { intros n l. unfold first_gold, line_logits, line_field. split.
    - intros (k & x & Hk & Hx & [g Hg]). destruct l as [r|]; [|discriminate].
      simpl in Hk. destruct (record_key sl idf r) as [[guid k']|] eqn:Hrk; [|discriminate].
      injection Hk as ->.
      destruct (getitem r (logits_field n)) as [x'|] eqn:Hgx; [|discriminate].
      injection Hx as ->. exists r, guid, k, x. split; [done|]. split; [done|].
      split; [done|].
      destruct (head (bearing sl idf k (epoch_content td_dir 0))) as [l0|]; [|discriminate].
      simpl in Hg. eauto.
    - intros (r & guid & k & x & -> & Hrk & Hgx & l0 & g & Hl0 & Hg).
      exists k, x. simpl. rewrite Hrk, Hgx, Hl0. simpl. rewrite Hg. eauto. }
  rewrite <- read_epochs_returns_iff, consistent_spec.
  split; intros H n Hn; destruct (H n Hn) as (c & Hc & Hlines); exists c;
    (split; [done|]); intros l Hl; apply Hline; by apply Hlines.
Qed.

Lemma dict_get_None_iff (td : dynamics) (k : key) :
  dict_get td k = None ↔ Some k ∉ hash_key <$> td.*1.
Proof.
  induction td as [|[g e] td IH]; simpl.
  - split; [|done]. intros _. apply not_elem_of_nil.
  - rewrite not_elem_of_cons. destruct (decide (hash_key g = Some k)) as [Hk|Hk].
    + split; [discriminate|]. intros [H _]. by destruct H.
    + rewrite IH. split; [|tauto]. intros H. split; [congruence|done].
Qed.

Lemma dict_append_keys (td : dynamics) (k : key) (x : json) :
  (dict_append td k x).*1 = td.*1.
Proof.
  induction td as [|[g e] td IH]; [done|]. simpl dict_append.
  destruct (decide (hash_key g = Some k)); [done|].
  rewrite !fmap_cons. by rewrite IH.
Qed.

Lemma process_file_first_keys (sl : bool) (idf : string) (n : Z) (c : list line)
    (td td' : dynamics) (ks : list key) :
  foldM (process_record sl idf n) td c = Ok td' →
  hash_key <$> td.*1 = Some <$> ks →
  hash_key <$> td'.*1 = Some <$> (ks ++ first_keys sl idf ks c).
Proof.
  revert td ks. induction c as [|l c IH]; intros td ks H Hks.
  - injection H as <-. simpl. by rewrite app_nil_r.
  - simpl in H. apply bind_Ok in H as (td1 & H1 & H).
    apply process_record_Ok in H1 as (k & x & Hk & _ & Hcase). simpl. rewrite Hk.
    destruct (dict_get td k) as [e|] eqn:Hget.
    + subst td1. assert (Hin : k ∈ ks).
      { assert (Hn : ¬ dict_get td k = None) by congruence.
        rewrite dict_get_None_iff, Hks in Hn.
        destruct (decide (k ∈ ks)) as [|Hnin]; [done|]. destruct Hn.
        intros (k' & [= <-] & ?)%list_elem_of_fmap. done. }
      rewrite decide_True by done. apply (IH _ _ H). by rewrite dict_append_keys.
    + destruct Hcase as (_ & r & guid & g & _ & Hrk & _ & ->).
      apply record_key_hash in Hrk.
      assert (Hnin : k ∉ ks).
      { apply dict_get_None_iff in Hget. rewrite Hks in Hget. intros Hin. apply Hget.
        apply list_elem_of_fmap. eauto. }
      rewrite decide_False by done.
      rewrite (IH _ (ks ++ [k]) H).
      * by rewrite <- app_assoc.
      * rewrite !fmap_app, Hks. simpl. by rewrite Hrk.
Qed.

Lemma process_file_same_keys (sl : bool) (idf : string) (n : Z) (c : list line)
    (td td' : dynamics) :
  n ≠ 0 → foldM (process_record sl idf n) td c = Ok td' → td'.*1 = td.*1.
Proof.
  intros Hn. revert td. induction c as [|l c IH]; intros td H.
  - by injection H as <-.
  - simpl in H. apply bind_Ok in H as (td1 & H1 & H).
    apply process_record_Ok in H1 as (k & x & _ & _ & Hcase).
    rewrite (IH _ H). destruct (dict_get td k).
    + subst td1. apply dict_append_keys.
    + by destruct Hcase as [? _].
Qed.

Lemma read_epochs_same_keys (sl : bool) (idf : string) (td_dir : gmap string node)
    (es : list Z) (td td' : dynamics) :
  0 ∉ es → foldM (process_epoch td_dir sl idf) td es = Ok td' → td'.*1 = td.*1.
Proof.
  revert td. induction es as [|n es IH]; intros td H0 H.
  - by injection H as <-.
  - simpl in H. apply bind_Ok in H as (td1 & H1 & H).
    apply not_elem_of_cons in H0 as [Hn H0].
    apply process_epoch_Ok in H1 as [_ H1].
    rewrite (IH _ H0 H). by eapply process_file_same_keys.
Qed.

Lemma first_keys_fresh (sl : bool) (idf : string) (seen : list key) (c : list line) :
  NoDup (first_keys sl idf seen c) ∧
  ∀ k, k ∈ first_keys sl idf seen c → k ∉ seen.
Proof.
  revert seen. induction c as [|l c IH]; intros seen; simpl.
  - split; [apply NoDup_nil_2|]. intros k Hk. by apply elem_of_nil in Hk.
  - destruct (line_key sl idf l) as [k0|]; [|apply IH].
    destruct (decide (k0 ∈ seen)) as [Hin|Hnin]; [apply IH|].
    destruct (IH (seen ++ [k0])) as [Hnd Hfresh]. split.
    + apply NoDup_cons_2; [|done]. intros Hk0. apply (Hfresh _ Hk0).
      apply elem_of_app. right. by apply list_elem_of_singleton.
    + intros k [->|Hk]%elem_of_cons; [done|].
      intros Hin. apply (Hfresh _ Hk). apply elem_of_app. by left.
Qed.

(** The keys of the returned mapping. *)
Lemma read_epochs_keys (sl : bool) (idf : string) (td_dir : gmap string node)
    (num : Z) (td : dynamics) :
  foldM (process_epoch td_dir sl idf) [] (range num) = Ok td →
  hash_key <$> td.*1 =
  Some <$> (if decide (0 < num) then first_keys sl idf [] (epoch_content td_dir 0) else []).
Proof.
  intros H. destruct (decide (0 < num)) as [Hnum|Hnum].
  - rewrite range_pos in H by done. simpl in H.
    apply bind_Ok in H as (td1 & H1 & H).
    apply process_epoch_Ok in H1 as [_ H1].
    rewrite (read_epochs_same_keys _ _ _ _ _ _ (range_tail_no_zero _) H).
    by apply (process_file_first_keys _ _ _ _ _ _ [] H1).
  - unfold range in H. replace (Z.to_nat num) with 0%nat in H by lia.
    by injection H as <-.
Qed.

Lemma dict_get_stored (td : dynamics) (g : json) (e : entry) (k : key) :
  NoDup (hash_key <$> td.*1) → (g, e) ∈ td → hash_key g = Some k →
  dict_get td k = Some e.
Proof.
  induction td as [|[g0 e0] td IH]; intros Hnd Hin Hk.
  - by apply elem_of_nil in Hin.
  - simpl in Hnd. apply list.NoDup_cons in Hnd as [Hfresh Hnd]. simpl.
    apply elem_of_cons in Hin as [[= <- <-]|Hin].
    + by rewrite decide_True.
    + rewrite decide_False; [by apply IH|]. intros Hk0. apply Hfresh. rewrite Hk0, <- Hk.
      apply list_elem_of_fmap. exists g. split; [done|].
      apply list_elem_of_fmap. by exists (g, e).
Qed.

(** X8: the keys of the returned mapping.  When a reader returns, the
    stored key objects are hashable and pairwise different as keys, and
    they stand in the order in which the keys first occur in the file of
    epoch 0 (later epochs add none); every stored entry is the one that a
    lookup of its key finds. *)
Theorem returned_keys_in_first_seen_order (s : split) (model_dir : gmap string dir_entry)
    (td_dir : gmap string node) (sl : bool) (idf : string) (burn_out : option Z)
    (td : dynamics) :
  listdir model_dir s = Ok td_dir →
  read_dynamics s model_dir sl idf burn_out = Ok td →
  hash_key <$> td.*1 =
    Some <$> (if decide (0 < num_epochs td_dir burn_out)
              then first_keys sl idf [] (epoch_content td_dir 0) else []) ∧
  NoDup (hash_key <$> td.*1) ∧
  ∀ g e, (g, e) ∈ td → ∃ k, hash_key g = Some k ∧ dict_get td k = Some e.
Proof.
  intros Hdir H. rewrite (read_dynamics_listed _ _ _ _ _ _ Hdir) in H.
  pose proof (read_epochs_keys _ _ _ _ _ H) as Hkeys.
  assert (Hnd : NoDup (hash_key <$> td.*1)).
  { rewrite Hkeys. apply NoDup_fmap; [apply _|].
    destruct (decide (0 < num_epochs td_dir burn_out)); [|apply NoDup_nil_2].
    apply first_keys_fresh. }
  split; [done|]. split; [done|]. intros g e Hin.
  assert (Hg : hash_key g ∈ hash_key <$> td.*1).
  { apply list_elem_of_fmap. exists g. split; [done|].
    apply list_elem_of_fmap. by exists (g, e). }
  rewrite Hkeys in Hg. apply list_elem_of_fmap in Hg as (k & Hk & _).
  exists k. split; [done|]. by eapply dict_get_stored.
Qed.

(** X9: the instances of the returned mapping.  When a reader returns,
    a key is in the mapping exactly when at least one epoch is read and
    some line of the file of epoch 0 bears it; so the mapping is empty
    exactly when no epoch is read or the file of epoch 0 is empty. *)
Theorem returned_instances (s : split) (model_dir : gmap string dir_entry)
    (td_dir : gmap string node) (sl : bool) (idf : string) (burn_out : option Z)
    (td : dynamics) :
  listdir model_dir s = Ok td_dir →
  read_dynamics s model_dir sl idf burn_out = Ok td →
  (∀ k, is_Some (dict_get td k) ↔
        0 < num_epochs td_dir burn_out ∧
        bearing sl idf k (epoch_content td_dir 0) ≠ []) ∧
  (td = [] ↔ num_epochs td_dir burn_out ≤ 0 ∨ epoch_content td_dir 0 = []).
Proof.
  intros Hdir H. rewrite (read_dynamics_listed _ _ _ _ _ _ Hdir) in H.
  assert (Hdom : ∀ k, is_Some (dict_get td k) ↔
            0 < num_epochs td_dir burn_out ∧
            bearing sl idf k (epoch_content td_dir 0) ≠ []).
  { intros k. rewrite (read_epochs_get _ _ _ _ _ k H).
    destruct (decide (0 < num_epochs td_dir burn_out)) as [Hnum|Hnum].
    - split.
      + intros [e He]. split; [done|]. intros Hb. unfold first_gold in He.
        by rewrite Hb in He.
      + intros [_ Hb]. destruct (bearing sl idf k (epoch_content td_dir 0))
          as [|l0 b] eqn:Hbk; [done|].
        assert (Hl0 : l0 ∈ bearing sl idf k (epoch_content td_dir 0))
          by (rewrite Hbk; apply elem_of_cons; by left).
        apply list_elem_of_filter in Hl0 as [Hk0 Hin].
        assert (Hz : 0 ∈ range (num_epochs td_dir burn_out))
          by (apply elem_of_range; lia).
        destruct (read_epochs_member _ _ _ _ _ _ _ _ _ H Hz Hin Hk0) as (e & x & He & _).
        rewrite (read_epochs_get _ _ _ _ _ k H), decide_True in He by done.
        rewrite He. eauto.
    - split; [by intros [? ?] | by intros [? _]]. }
  split; [done|]. split.
  - intros ->. destruct (decide (0 < num_epochs td_dir burn_out)) as [Hnum|]; [|left; lia].
    right. destruct (epoch_content td_dir 0) as [|l c] eqn:Hc; [done|]. exfalso.
    assert (Hz : 0 ∈ range (num_epochs td_dir burn_out)) by (apply elem_of_range; lia).
    assert (Hl : l ∈ epoch_content td_dir 0) by (rewrite Hc; apply elem_of_cons; by left).
    assert (Hcons := read_epochs_consistent _ _ _ _ _ H).
    destruct (proj1 (consistent_spec _ _ _ _) Hcons 0) as (c0 & Hc0 & Hlines); [lia|].
    assert (epoch_content td_dir 0 = c0) as Heq by (unfold epoch_content; by rewrite Hc0).
    rewrite Heq in Hl. destruct (Hlines l Hl) as (k & x & Hk & _).
    rewrite <- Heq in Hl.
    by destruct (read_epochs_member _ _ _ _ _ _ _ _ _ H Hz Hl Hk) as (e & ? & ? & _).
  - intros Hor. pose proof (read_epochs_keys _ _ _ _ _ H) as Hkeys.
    assert (Hnil : hash_key <$> td.*1 = []).
    { rewrite Hkeys. destruct (decide (0 < num_epochs td_dir burn_out)); [|done].
      destruct Hor as [?|Hc]; [lia | by rewrite Hc]. }
    apply fmap_nil_inv, fmap_nil_inv in Hnil. done.
Qed.

Lemma reader_returns_iff_witness :
  (∃ td, read_training_dynamics (in_subdir Training two_epochs) false "guid" None = Ok td) ↔
  ∀ n, 0 ≤ n < num_epochs two_epochs None →
    ∃ c, two_epochs !! epoch_file_name n = Some (RegFile c) ∧
      ∀ l, l ∈ c →
        ∃ r guid k x, l = Some r ∧ record_key false "guid" r = Ok (guid, k) ∧
          getitem r (logits_field n) = Ok x ∧
          ∃ l0 g, head (bearing false "guid" k (epoch_content two_epochs 0)) = Some l0 ∧
                  line_gold l0 = Some g.
Proof.
  apply (reader_returns_iff Training (in_subdir Training two_epochs) two_epochs
           false "guid" None).
  reflexivity.
Defined.

Lemma returned_keys_in_first_seen_order_witness :
  ∃ td, read_training_dynamics (in_subdir Training duplicated) false "guid" None = Ok td ∧
        hash_key <$> td.*1 = [Some (int_key 1)] ∧ NoDup (hash_key <$> td.*1).
Proof.
  assert (∃ td, read_training_dynamics (in_subdir Training duplicated) false "guid" None
                = Ok td) as [td Htd] by (eexists; vm_compute; reflexivity).
  destruct (returned_keys_in_first_seen_order Training (in_subdir Training duplicated)
              duplicated false "guid" None td eq_refl Htd) as (Hkeys & Hnd & _).
  exists td. split; [done|]. split; [|done]. rewrite Hkeys. vm_compute. reflexivity.
Defined.

Lemma returned_instances_witness :
  ∃ td, read_training_dynamics (in_subdir Training late_instance) false "guid" (Some 1)
        = Ok td ∧
        is_Some (dict_get td (int_key 1)) ∧ dict_get td (int_key 3) = None.
Proof.
  assert (∃ td, read_training_dynamics (in_subdir Training late_instance) false "guid"
                  (Some 1) = Ok td) as [td Htd] by (eexists; vm_compute; reflexivity).
  destruct (returned_instances Training (in_subdir Training late_instance)
              late_instance false "guid" (Some 1) td eq_refl Htd) as (Hdom & _).
  exists td. split; [done|]. split.
  - apply Hdom. split; [vm_compute; reflexivity|]. vm_compute. discriminate.
  - destruct (dict_get td (int_key 3)) as [e|] eqn:He; [|done].
    destruct (proj1 (Hdom (int_key 3))) as [_ Hb]; [eauto|].
    exfalso. apply Hb. vm_compute. reflexivity.
Defined.

(** ** Other entries in the subdirectory *)

(** X10: a stray regular file breaks the reader.  Let a reader (without
    cutoff) return on a subdirectory with [num] regular files, none of
    them for epoch [num].  Once one more regular file lies in the
    subdirectory, under any name but that of epoch [num], the count is
    [num + 1], the reader asks for the file of epoch [num] and ends in an
    [AssertionError]. *)
Theorem stray_file_breaks_reader (s : split) (model_dir : gmap string dir_entry)
    (td_dir : gmap string node) (sl : bool) (idf : string) (stray : string)
    (c : list line) (td : dynamics) :
  listdir model_dir s = Ok td_dir →
  read_dynamics s model_dir sl idf None = Ok td →
  td_dir !! stray = None →
  td_dir !! epoch_file_name (count_files td_dir) = None →
  stray ≠ epoch_file_name (count_files td_dir) →
  read_dynamics s (<[subdir s := Folder (<[stray := RegFile c]> td_dir)]> model_dir)
    sl idf None = Raise AssertionError.
Proof.
  intros Hdir Hread Hstray Hnext Hname.
  rewrite (read_dynamics_listed _ _ _ _ _ _ Hdir) in Hread.
  rewrite (read_dynamics_listed _ _ (<[stray := RegFile c]> td_dir));
    [|apply listdir_Ok, lookup_insert_eq].
  unfold num_epochs in *. rewrite count_files_insert_file by done.
  assert (Hnum : 0 ≤ count_files td_dir) by (unfold count_files; lia).
  rewrite range_succ, foldM_app by done.
  rewrite (read_epochs_same_files td_dir).
  - rewrite Hread. simpl. rewrite process_epoch_missing; [done|].
    by rewrite lookup_insert_ne.
  - intros j Hj. apply lookup_insert_ne. intros ->.
    rewrite (read_epochs_exist _ _ _ _ _ _ _ Hread Hj) in Hstray. discriminate.
Qed.

Lemma stray_file_breaks_reader_witness :
  read_training_dynamics
    (<[subdir Training := Folder (<["notes.txt" := RegFile []]> two_epochs)]>
       (in_subdir Training two_epochs)) false "guid" None = Raise AssertionError.
Proof.
  assert (∃ td, read_training_dynamics (in_subdir Training two_epochs) false "guid" None
                = Ok td) as [td Htd] by (eexists; vm_compute; reflexivity).
  apply (stray_file_breaks_reader Training (in_subdir Training two_epochs) two_epochs
           false "guid" "notes.txt" [] td).
  - reflexivity.
  - exact Htd.
  - vm_compute. reflexivity.
  - vm_compute. reflexivity.
  - vm_compute. discriminate.
Defined.

(** X11: a stray subdirectory is not counted.  A directory inside the
    per-kind subdirectory, under a name that is no epoch file's, changes
    nothing: the reader does on the subdirectory with it what it does on
    the subdirectory without it. *)
Theorem stray_subdir_ignored (s : split) (model_dir : gmap string dir_entry)
    (td_dir : gmap string node) (sl : bool) (idf : string) (burn_out : option Z)
    (stray : string) :
  listdir model_dir s = Ok td_dir →
  td_dir !! stray = None →
  (∀ j, stray ≠ epoch_file_name j) →
  read_dynamics s (<[subdir s := Folder (<[stray := SubDir]> td_dir)]> model_dir)
    sl idf burn_out =
  read_dynamics s model_dir sl idf burn_out.
Proof.
  intros Hdir Hstray Hname.
  rewrite (read_dynamics_listed _ _ _ _ _ _ Hdir).
  rewrite (read_dynamics_listed _ _ (<[stray := SubDir]> td_dir));
    [|apply listdir_Ok, lookup_insert_eq].
  unfold num_epochs. rewrite count_files_insert_subdir by done.
  apply read_epochs_same_files. intros j _. by apply lookup_insert_ne.
Qed.

Lemma stray_subdir_ignored_witness :
  read_eval_dynamics
    (<[subdir Evaluation := Folder (<["checkpoints" := SubDir]> two_epochs)]>
       (in_subdir Evaluation two_epochs)) false "guid" None =
  read_eval_dynamics (in_subdir Evaluation two_epochs) false "guid" None.
Proof.
  apply (stray_subdir_ignored Evaluation (in_subdir Evaluation two_epochs) two_epochs
           false "guid" None "checkpoints").
  - reflexivity.
  - vm_compute. reflexivity.
  - intros j H. apply (f_equal (String.get 0)) in H. discriminate H.
Defined.

(** ** The cutoff and the layout of a history *)

Lemma range_prefix (c n : Z) :
  0 < c ≤ n → ∃ rest, range n = range c ++ rest ∧ 0 ∉ rest.
Proof.
  intros Hc. unfold range. exists (Z.of_nat <$> seq (Z.to_nat c) (Z.to_nat (n - c))).
  split.
  - rewrite <- fmap_app, <- seq_app. do 2 f_equal. lia.
  - intros (i & Hi & Hin)%list_elem_of_fmap. apply elem_of_seq in Hin. lia.
Qed.

Lemma all_logits_app (sl : bool) (idf : string) (td_dir : gmap string node) (k : key)
    (es1 es2 : list Z) :
  all_logits sl idf td_dir k (es1 ++ es2) =
  all_logits sl idf td_dir k es1 ++ all_logits sl idf td_dir k es2.
Proof. unfold all_logits. apply bind_app. Qed.

(** X12: a cutoff gives prefixes.  If a reader returns [td] for some
    number of epochs, then with a positive cutoff not above that number
    it returns too: the same keys in the same order, the same gold
    labels, and for each key a history that is a prefix of its history in
    [td]. *)
Theorem burn_out_gives_prefixes (s : split) (model_dir : gmap string dir_entry)
    (td_dir : gmap string node) (sl : bool) (idf : string) (burn_out : option Z)
    (cutoff : Z) (td : dynamics) :
  listdir model_dir s = Ok td_dir →
  read_dynamics s model_dir sl idf burn_out = Ok td →
  0 < cutoff ≤ num_epochs td_dir burn_out →
  ∃ td_c,
    read_dynamics s model_dir sl idf (Some cutoff) = Ok td_c ∧
    td_c.*1 = td.*1 ∧
    ∀ k e, dict_get td k = Some e →
      ∃ e_c, dict_get td_c k = Some e_c ∧ gold e_c = gold e ∧
             logits e_c `prefix_of` logits e.
Proof.
  intros Hdir Hread Hc.
  rewrite !(read_dynamics_listed _ _ _ _ _ _ Hdir) in *.
  assert (Hnum : num_epochs td_dir (Some cutoff) = cutoff)
    by (unfold num_epochs; rewrite decide_False by lia; done).
  rewrite Hnum.
  destruct (range_prefix cutoff (num_epochs td_dir burn_out) Hc) as (rest & Hrange & H0).
  rewrite Hrange, foldM_app in Hread.
  apply bind_Ok in Hread as (td_c & Hc_read & Hrest).
  exists td_c. split; [done|]. split.
  - symmetry. by eapply read_epochs_same_keys.
  - intros k e He.
    assert (Hfull : foldM (process_epoch td_dir sl idf) []
                      (range (num_epochs td_dir burn_out)) = Ok td)
      by (by rewrite Hrange, foldM_app, Hc_read).
    rewrite (read_epochs_get _ _ _ _ _ k Hfull), decide_True in He by lia.
    rewrite (read_epochs_get _ _ _ _ _ k Hc_read), decide_True by lia.
    destruct (first_gold sl idf k (epoch_content td_dir 0)) as [g|]; [|discriminate].
    injection He as <-. eexists. split; [done|]. split; [done|]. simpl.
    rewrite Hrange, all_logits_app. by apply prefix_app_r.
Qed.

Lemma burn_out_gives_prefixes_witness :
  ∃ td td_c,
    read_training_dynamics (in_subdir Training two_epochs) false "guid" None = Ok td ∧
    read_training_dynamics (in_subdir Training two_epochs) false "guid" (Some 1) = Ok td_c ∧
    td_c.*1 = td.*1.
Proof.
  assert (∃ td, read_training_dynamics (in_subdir Training two_epochs) false "guid" None
                = Ok td) as [td Htd] by (eexists; vm_compute; reflexivity).
  destruct (burn_out_gives_prefixes Training (in_subdir Training two_epochs) two_epochs
              false "guid" None 1 td eq_refl Htd) as (td_c & Hc & Hkeys & _).
  - vm_compute. split; [reflexivity | discriminate].
  - exists td, td_c. split; [done|]. split; [done|]. done.
Defined.

(** X13: where the score-vectors of an epoch stand.  In a returned
    mapping, the score-vector of the first line of epoch [j] that bears a
    key stands in that key's history at the position that equals the
    number of lines bearing the key in the epochs before [j].  So it
    stands at position [j] exactly when these epochs hold [j] lines
    bearing the key between them: a key that is missing from an earlier
    file (which the reader lets pass) and has one line in each of the
    others has its later score-vectors moved up. *)
Theorem history_layout (s : split) (model_dir : gmap string dir_entry)
    (td_dir : gmap string node) (sl : bool) (idf : string) (burn_out : option Z)
    (td : dynamics) (k : key) (e : entry) (j : Z) (l : line) :
  listdir model_dir s = Ok td_dir →
  read_dynamics s model_dir sl idf burn_out = Ok td →
  dict_get td k = Some e →
  0 ≤ j < num_epochs td_dir burn_out →
  head (bearing sl idf k (epoch_content td_dir j)) = Some l →
  is_Some (line_logits j l) ∧
  logits e !! length (all_bearing sl idf td_dir k (range j)) = line_logits j l.
Proof.
  intros Hdir Hread He Hj Hl.
  rewrite (read_dynamics_listed _ _ _ _ _ _ Hdir) in Hread.
  assert (Hin : l ∈ bearing sl idf k (epoch_content td_dir j)).
  { destruct (bearing sl idf k (epoch_content td_dir j)); [discriminate|].
    injection Hl as ->. apply elem_of_cons. by left. }
  apply list_elem_of_filter in Hin as [Hk Hin].
  destruct (read_epochs_member _ _ _ _ _ _ j l k Hread) as (_ & x & _ & Hx & _);
    [by apply elem_of_range | done | done |].
  split; [rewrite Hx; eauto|].
  rewrite (read_epochs_get _ _ _ _ _ k Hread), decide_True in He by lia.
  destruct (first_gold sl idf k (epoch_content td_dir 0)); [|discriminate].
  injection He as <-. simpl.
  destruct (range_split (num_epochs td_dir burn_out) j Hj) as [rest Hrange].
  rewrite Hrange, foldM_app in Hread. apply bind_Ok in Hread as (td_j & Hpre & _).
  rewrite Hrange, all_logits_app.
  rewrite <- (read_epochs_logits _ _ _ _ _ _ k Hpre).
  rewrite lookup_app_r, Nat.sub_diag by lia.
  unfold all_logits. rewrite bind_cons. unfold key_logits.
  destruct (bearing sl idf k (epoch_content td_dir j)) as [|l0 b]; [discriminate|].
  injection Hl as ->. simpl. by rewrite Hx.
Qed.

Lemma history_layout_witness :
  ∃ td e, read_eval_dynamics (in_subdir Evaluation two_epochs) false "guid" None = Ok td ∧
          dict_get td (int_key 2) = Some e ∧
          logits e !! 1%nat = Some (json_of_scores [7#10; 3#10]%Q).
Proof.
  assert (∃ td, read_eval_dynamics (in_subdir Evaluation two_epochs) false "guid" None
                = Ok td) as [td Htd] by (eexists; vm_compute; reflexivity).
  assert (He : is_Some (dict_get td (int_key 2))).
  { vm_compute in Htd. injection Htd as <-. vm_compute. eauto. }
  destruct He as [e He].
  destruct (history_layout Evaluation (in_subdir Evaluation two_epochs) two_epochs
              false "guid" None td (int_key 2) e 1
              (Some (JObj (make_row 1 (IdInt 2) [7#10; 3#10]%Q 0)))
              eq_refl Htd He) as [_ Hpos].
  - vm_compute. split; [discriminate | reflexivity].
  - vm_compute. reflexivity.
  - exists td, e. split; [done|]. split; [done|].
    vm_compute in Hpos. exact Hpos.
Defined.

(** ** A file of another epoch *)

#[global] Instance logits_field_inj : Inj (=) (=) logits_field.
Proof.
  intros a b H. unfold logits_field in H.
  apply String.app_inj in H. by apply (inj pretty).
Qed.

Lemma logits_field_not_gold (j : Z) : logits_field j ≠ "gold".
Proof. unfold logits_field. intros H. apply (f_equal (String.get 0)) in H. discriminate. Qed.

Lemma getitem_make_row_gold (j : Z) (i : ident) (v : list Q) (g : Z) :
  getitem (JObj (make_row j i v g)) "gold" = Ok (JInt g).
Proof.
  unfold getitem, make_row, obj_get.
  rewrite decide_False by discriminate.
  rewrite decide_False by apply logits_field_not_gold.
  by rewrite decide_True.
Qed.

Lemma getitem_make_row_other (e n : Z) (i : ident) (v : list Q) (g : Z) :
  e ≠ n → getitem (JObj (make_row e i v g)) (logits_field n) = Raise KeyError.
Proof.
  intros He. unfold getitem, make_row, obj_get.
  rewrite decide_False by (intros H; by apply (logits_field_not_guid n)).
  rewrite decide_False by (intros H; by apply (inj _) in H).
  by rewrite decide_False by (intros H; by apply (logits_field_not_gold n)).
Qed.

(** A record without the score-vector field of the epoch being read. *)
Lemma process_record_no_logits (sl : bool) (idf : string) (n : Z) (td : dynamics)
    (r guid : json) (k : key) :
  record_key sl idf r = Ok (guid, k) →
  getitem r (logits_field n) = Raise KeyError →
  is_Some (dict_get td k) ∨ (n = 0 ∧ ∃ g, getitem r "gold" = Ok g) →
  process_record sl idf n td (Some r) = Raise KeyError.
Proof.
  intros Hk Hx Hor. unfold process_record. simpl. rewrite Hk. simpl.
  destruct (dict_get td k) as [e|]; simpl; [by rewrite Hx|].
  destruct Hor as [[? ?]|[-> [g Hg]]]; [discriminate|].
  rewrite decide_True by done. rewrite Hg. simpl. by rewrite Hx.
Qed.

(** X14: the score-vector field is the epoch's.  Let the file that the
    reader takes for epoch [n] hold rows that a writer wrote for another
    epoch [e] (a renamed or copied file).  Then the reader never returns a
    mapping; when it gets as far as this file and the first row's key is
    known or [n] is 0, it ends in a [KeyError], for the field
    [logits_epoch_<n>] that the row does not have. *)
Theorem epoch_file_of_other_epoch (s : split) (model_dir : gmap string dir_entry)
    (td_dir : gmap string node) (burn_out : option Z) (n e : Z)
    (i : ident) (ids : list ident) (v : list Q) (vs : list (list Q)) (g : Z)
    (gs : list Z) :
  listdir model_dir s = Ok td_dir →
  0 ≤ n < num_epochs td_dir burn_out →
  e ≠ n →
  td_dir !! epoch_file_name n =
    Some (RegFile (to_json (zip_rows e (i :: ids) (v :: vs) (g :: gs)))) →
  (∀ td, read_dynamics s model_dir false "guid" burn_out ≠ Ok td) ∧
  (∀ td_n k,
     foldM (process_epoch td_dir false "guid") [] (range n) = Ok td_n →
     hash_key (json_of_ident i) = Some k →
     n = 0 ∨ is_Some (dict_get td_n k) →
     read_dynamics s model_dir false "guid" burn_out = Raise KeyError).
Proof.
  intros Hdir Hn He Hfile.
  rewrite (read_dynamics_listed _ _ _ _ _ _ Hdir).
  assert (Hkey : ∀ w k, hash_key (json_of_ident i) = Some k →
            record_key false "guid" (JObj (make_row e i w g)) = Ok (json_of_ident i, k)).
  { intros w k Hk. unfold record_key. rewrite getitem_make_row_guid. simpl. by rewrite Hk. }
  split.
  - intros td Htd. destruct (hash_key_ident_Some i) as [k Hk].
    destruct (read_epochs_member _ _ _ _ _ _ n
                (Some (JObj (make_row e i (render_float <$> v) g))) k Htd)
      as (_ & x & _ & Hx & _).
    + by apply elem_of_range.
    + unfold epoch_content. rewrite Hfile, to_json_zip_rows. apply elem_of_cons. by left.
    + simpl. by rewrite (Hkey _ k Hk).
    + unfold line_logits, line_field in Hx.
      by rewrite getitem_make_row_other in Hx.
  - intros td_n k Hpre Hk Hor.
    destruct (range_split (num_epochs td_dir burn_out) n Hn) as [rest ->].
    rewrite foldM_app, Hpre. simpl.
    rewrite (process_epoch_file _ _ _ _ _ _ Hfile).
    rewrite to_json_zip_rows.
    change (record_lines (zip_rows e (i :: ids) (rendered (v :: vs)) (g :: gs)))
      with (Some (JObj (make_row e i (render_float <$> v) g))
              :: record_lines (zip_rows e ids (rendered vs) gs)).
    simpl foldM.
    rewrite (process_record_no_logits _ _ _ _ _ _ k (Hkey _ k Hk)); [done| |].
    + by apply getitem_make_row_other.
    + destruct Hor as [->|?]; [right|by left]. split; [done|].
      exists (JInt g). apply getitem_make_row_gold.
Qed.

Lemma epoch_file_of_other_epoch_witness :
  read_training_dynamics
    (in_subdir Training (<[epoch_file_name 0 := RegFile (to_json epoch1_rows)]> ∅))
    false "guid" None = Raise KeyError.
Proof.
  destruct (epoch_file_of_other_epoch Training
              (in_subdir Training (<[epoch_file_name 0 := RegFile (to_json epoch1_rows)]> ∅))
              (<[epoch_file_name 0 := RegFile (to_json epoch1_rows)]> ∅) None 0 1
              (IdInt 1) [IdInt 2] [2#10; 8#10]%Q [[7#10; 3#10]%Q] 1 [0])
    as [_ Hreach].
  - reflexivity.
  - vm_compute. split; [discriminate | reflexivity].
  - discriminate.
  - reflexivity.
  - apply (Hreach [] (int_key 1)); [reflexivity | reflexivity | by left].
Defined.

(** ** Written files read with other options *)

Lemma read_first_line_raises (sl : bool) (idf : string) (td_dir : gmap string node)
    (num : Z) (l : line) (c : list line) (e : exn) :
  0 < num →
  td_dir !! epoch_file_name 0 = Some (RegFile (l :: c)) →
  process_record sl idf 0 [] l = Raise e →
  foldM (process_epoch td_dir sl idf) [] (range num) = Raise e.
Proof.
  intros Hnum Hfile Hl. rewrite range_pos by done. simpl foldM.
  rewrite (process_epoch_file _ _ _ _ _ _ Hfile). simpl foldM. by rewrite Hl.
Qed.

(** X15: integer identifiers cannot be stripped.  If the first record of
    the file of epoch 0 is a written row with an integer identifier, a
    reader called with the strip-last-character flag ends in a
    [TypeError] (the slice [[:-1]] of an [int]), whatever else the
    directory holds. *)
Theorem strip_last_on_integer_ids (s : split) (model_dir : gmap string dir_entry)
    (td_dir : gmap string node) (burn_out : option Z) (e z : Z) (v : list Q) (g : Z)
    (c : list line) :
  listdir model_dir s = Ok td_dir →
  0 < num_epochs td_dir burn_out →
  td_dir !! epoch_file_name 0 =
    Some (RegFile (Some (JObj (make_row e (IdInt z) v g)) :: c)) →
  read_dynamics s model_dir true "guid" burn_out = Raise TypeError.
Proof.
  intros Hdir Hnum Hfile. rewrite (read_dynamics_listed _ _ _ _ _ _ Hdir).
  apply (read_first_line_raises _ _ _ _ _ _ _ Hnum Hfile).
  unfold process_record, record_key. simpl json_loads.
  change (Ok (JObj (make_row e (IdInt z) v g)) ≫= ?f) with (f (JObj (make_row e (IdInt z) v g))).
  cbv beta. rewrite getitem_make_row_guid. reflexivity.
Qed.

Lemma strip_last_on_integer_ids_witness :
  read_training_dynamics (in_subdir Training two_epochs) true "guid" None = Raise TypeError.
Proof.
  apply (strip_last_on_integer_ids Training (in_subdir Training two_epochs) two_epochs
           None 0 1 [1#10; 9#10]%Q 1
           [Some (JObj (make_row 0 (IdInt 2) [8#10; 2#10]%Q 0))]).
  - reflexivity.
  - vm_compute. reflexivity.
  - reflexivity.
Defined.

Lemma getitem_make_row_unknown (e : Z) (i : ident) (v : list Q) (g : Z) (field : string) :
  field ≠ "guid" → field ≠ logits_field e → field ≠ "gold" →
  getitem (JObj (make_row e i v g)) field = Raise KeyError.
Proof.
  intros H1 H2 H3. unfold getitem, make_row, obj_get.
  by rewrite !decide_False by done.
Qed.

(** X16: an identifier field that the writers do not write.  The writers
    store the identifier under ["guid"].  If the first record of the file
    of epoch 0 is a written row, a reader called with an identifier field
    that is none of the row's three fields ends in a [KeyError]. *)
Theorem unknown_id_field (s : split) (model_dir : gmap string dir_entry)
    (td_dir : gmap string node) (sl : bool) (idf : string) (burn_out : option Z)
    (e : Z) (i : ident) (v : list Q) (g : Z) (c : list line) :
  listdir model_dir s = Ok td_dir →
  0 < num_epochs td_dir burn_out →
  td_dir !! epoch_file_name 0 = Some (RegFile (Some (JObj (make_row e i v g)) :: c)) →
  idf ≠ "guid" → idf ≠ logits_field e → idf ≠ "gold" →
  read_dynamics s model_dir sl idf burn_out = Raise KeyError.
Proof.
  intros Hdir Hnum Hfile H1 H2 H3. rewrite (read_dynamics_listed _ _ _ _ _ _ Hdir).
  apply (read_first_line_raises _ _ _ _ _ _ _ Hnum Hfile).
  unfold process_record, record_key. simpl json_loads.
  change (Ok (JObj (make_row e i v g)) ≫= ?f) with (f (JObj (make_row e i v g))).
  cbv beta. rewrite (getitem_make_row_unknown e i v g idf H1 H2 H3). reflexivity.
Qed.

Lemma unknown_id_field_witness :
  read_eval_dynamics (in_subdir Evaluation two_epochs) false "id" None = Raise KeyError.
Proof.
  apply (unknown_id_field Evaluation (in_subdir Evaluation two_epochs) two_epochs
           false "id" None 0 (IdInt 1) [1#10; 9#10]%Q 1
           [Some (JObj (make_row 0 (IdInt 2) [8#10; 2#10]%Q 0))]).
  - reflexivity.
  - vm_compute. reflexivity.
  - reflexivity.
  - discriminate.
  - vm_compute. discriminate.
  - discriminate.
Defined.
